(** * Lace: data-centre siting pipeline (src/app.py)

    A shallow embedding of the four stages of [app.py] -- [load_data],
    [find_data_center], [plot_map], [calculate_impact] -- together with
    [display_3d_bar_chart] and [main], followed by the properties of the
    pipeline's contract.

    Conventions of the model.
    - A Python float is an exact rational ([Qc]) or [NaN]; rounding is not
      modelled, so "within floating tolerance" reads as equality.
    - A pandas [DataFrame] is an object on a heap ([frames]); the Python
      variables [df], [merged_data], ... hold its location.
    - Streamlit's page, the file system, the network and numpy's global
      random state are fields of the [world] the stages run in.
    - A Python exception (a subclass of [Exception]) is the [Raise] outcome
      of a computation. *)

From Stdlib Require Import QArith Qcanon Field Ascii.
From stdpp Require Import base numbers list strings gmap pretty.

Open Scope Qc_scope.

(** ** Cells, frames and outcomes *)

(** The rational [n/d], for the decimal literals of the source. *)
Definition frac (n : Z) (d : positive) : Qc := Q2Qc (n # d).

Global Instance Qc_inhabited : Inhabited Qc := populate 0.

(** What a spreadsheet cell holds once pandas has read it: a number, the
    missing value, or text that is not a number. *)
Inductive cell :=
  | Num (q : Qc)
  | NaN
  | Str (s : string).

Global Instance cell_eq_dec : EqDecision cell.
Proof. solve_decision. Defined.

Record DataFrame := {
  columns : list string;
  rows : list (list cell)
}.

Global Instance DataFrame_eq_dec : EqDecision DataFrame.
Proof. solve_decision. Defined.

Inductive Exception :=
  | KeyError (msg : string)
  | ValueError (msg : string)
  | TypeError (msg : string)
  | IndexError (msg : string)
  | OSError (msg : string)
  | RequestException (msg : string).

(** [repr] of a Python string: the text between single quotes -- between
    double quotes when it holds a single quote and no double quote -- with
    the backslash, the quote in use and the control characters escaped.  A
    character outside ASCII is taken to be printable and is kept. *)
Definition backslash : Ascii.ascii := "092"%char.

Definition double_quote : Ascii.ascii := "034"%char.

Definition hex_digit (n : N) : Ascii.ascii :=
  default "0"%char (String.get (N.to_nat n) "0123456789abcdef").

Definition repr_char (quote a : Ascii.ascii) : string :=
  let escape (s : string) := String backslash s in
  if decide (a = backslash) then escape (String backslash EmptyString)
  else if decide (a = quote) then escape (String quote EmptyString)
  else if decide (a = "010"%char) then escape "n"
  else if decide (a = "013"%char) then escape "r"
  else if decide (a = "009"%char) then escape "t"
  else
    let n := Ascii.N_of_ascii a in
    if ((n <? 32) || (n =? 127))%N
    then escape (String "x"%char
                   (String (hex_digit (n / 16)) (String (hex_digit (n `mod` 16)) EmptyString)))
    else String a EmptyString.

Fixpoint contains (a : Ascii.ascii) (s : string) : bool :=
  match s with
  | EmptyString => false
  | String b s' => bool_decide (a = b) || contains a s'
  end.

Fixpoint escaped (quote : Ascii.ascii) (s : string) : string :=
  match s with
  | EmptyString => EmptyString
  | String a s' => repr_char quote a +:+ escaped quote s'
  end.

Definition repr (s : string) : string :=
  let quote :=
    if contains "'"%char s && negb (contains double_quote s)
    then double_quote else "'"%char in
  String quote (escaped quote s +:+ String quote EmptyString).

(** [str(e)], which an f-string interpolates: the argument of the
    exception, except that a [KeyError] prints the [repr] of its argument. *)
Definition exc_str (e : Exception) : string :=
  match e with
  | KeyError m => repr m
  | ValueError m | TypeError m | IndexError m
  | OSError m | RequestException m => m
  end.

Inductive outcome (A : Type) :=
  | Ok (a : A)
  | Raise (e : Exception).
Arguments Ok {A} a.
Arguments Raise {A} e.

Global Instance Exception_eq_dec : EqDecision Exception.
Proof. solve_decision. Defined.

Global Instance outcome_eq_dec `{EqDecision A} : EqDecision (outcome A).
Proof. solve_decision. Defined.

Global Instance outcome_ret : MRet outcome := λ A a, Ok a.
Global Instance outcome_bind : MBind outcome := λ A B f o,
  match o with
  | Ok a => f a
  | Raise e => Raise e
  end.

(** ** pandas on frame values *)

Module pd.

Local Abbreviation frame := DataFrame.

(** [pd.DataFrame()]: no columns, no rows. *)
Definition DataFrame : frame := {| columns := []; rows := [] |}.

(** [df.empty]: some axis has length 0. *)
Definition empty (df : frame) : bool :=
  (length (columns df) =? 0)%nat || (length (rows df) =? 0)%nat.

(** Every row has one cell per column. *)
Definition wf (df : frame) : Prop :=
  Forall (λ r, length r = length (columns df)) (rows df).

(** Position of the first column with a given label. *)
Fixpoint get_loc (label : string) (cols : list string) : option nat :=
  match cols with
  | [] => None
  | c :: cols' => if decide (c = label) then Some 0%nat else S <$> get_loc label cols'
  end.

Definition cell_at (i : nat) (r : list cell) : cell := default NaN (r !! i).

(** [df[label]]: the column as a list of cells, or [KeyError]. *)
Definition getitem (df : frame) (label : string) : outcome (list cell) :=
  match get_loc label (columns df) with
  | Some i => Ok (cell_at i <$> rows df)
  | None => Raise (KeyError label)
  end.

(** Positions of all the columns with a given label. *)
Fixpoint get_locs (label : string) (cols : list string) : list nat :=
  match cols with
  | [] => []
  | c :: cols' =>
      (if decide (c = label) then [0%nat] else []) ++ (S <$> get_locs label cols')
  end.

(** [df[[a, b]]]: the frame of the columns labelled [a] followed by the
    columns labelled [b]; a label that several columns carry selects all
    of them.  When a label is missing, one [KeyError] is raised whose
    message names what is missing: both labels when neither is there, the
    missing one otherwise. *)
Definition getitem2 (df : frame) (a b : string) : outcome frame :=
  let ia := get_locs a (columns df) in
  let ib := get_locs b (columns df) in
  match ia, ib with
  | [], [] =>
      Raise (KeyError ("None of [Index([" +:+ repr a +:+ ", " +:+ repr b +:+
                       "], dtype='object')] are in the [columns]"))
  | [], _ :: _ => Raise (KeyError ("[" +:+ repr a +:+ "] not in index"))
  | _ :: _, [] => Raise (KeyError ("[" +:+ repr b +:+ "] not in index"))
  | _ :: _, _ :: _ =>
      Ok {| columns := replicate (length ia) a ++ replicate (length ib) b;
            rows := (λ r, (λ i, cell_at i r) <$> (ia ++ ib)) <$> rows df |}
  end.
Arguments getitem2 : simpl never.

(** [Series.mean()] with pandas' default [skipna=True]: text makes it
    raise, missing values are skipped, and a column with no number at all
    has mean [NaN]. *)
Fixpoint numbers (s : list cell) : outcome (list Qc) :=
  match s with
  | [] => Ok []
  | Num q :: s' =>
      match numbers s' with Ok qs => Ok (q :: qs) | Raise e => Raise e end
  | NaN :: s' => numbers s'
  | Str t :: _ => Raise (TypeError ("Could not convert " +:+ t +:+ " to numeric"))
  end.

Definition sum (qs : list Qc) : Qc := foldr Qcplus 0 qs.

Definition count (qs : list Qc) : Qc := Q2Qc (inject_Z (Z.of_nat (length qs))).

Definition average (qs : list Qc) : Qc := sum qs / count qs.

Definition mean (s : list cell) : outcome cell :=
  match numbers s with
  | Ok [] => Ok NaN
  | Ok qs => Ok (Num (average qs))
  | Raise e => Raise e
  end.

(** Join keys match when the cells are equal; pandas matches a missing
    key with a missing key. *)
Definition key_match (k1 k2 : cell) : bool := bool_decide (k1 = k2).

(** Labels of the merged frame: the left labels, then the right labels
    without the key; a label on both sides gets the suffix [_x] or [_y]. *)
Definition overlap (lc rc : list string) (on c : string) : bool :=
  bool_decide (c ≠ on) && bool_decide (c ∈ lc) && bool_decide (c ∈ rc).

Definition llabels (lc rc : list string) (on : string) : list string :=
  (λ c, if overlap lc rc on c then c +:+ "_x" else c) <$> lc.

Definition rlabels (lc rc : list string) (on : string) (j : nat) : list string :=
  (λ c, if overlap lc rc on c then c +:+ "_y" else c) <$> delete j rc.

Definition merged_columns (lc rc : list string) (on : string) (j : nat) : list string :=
  llabels lc rc on ++ rlabels lc rc on j.

(** The column a key label refers to: a missing label is a [KeyError], a
    label that several columns carry is refused. *)
Definition label_loc (cols : list string) (on : string) : outcome nat :=
  match get_locs on cols with
  | [] => Raise (KeyError on)
  | [i] => Ok i
  | _ :: _ :: _ => Raise (ValueError ("The column label '" +:+ on +:+ "' is not unique."))
  end.

(** The dtype pandas gives a column that [read_excel] has parsed: [object]
    when it holds text or has no row, [int64] when it holds integers only
    (the openpyxl reader hands over a number without a fractional part as
    an integer), [float64] otherwise. *)
Inductive dtype := int64 | float64 | object.

Definition dtype_name (t : dtype) : string :=
  match t with int64 => "int64" | float64 => "float64" | object => "object" end.

Definition is_text (c : cell) : bool := if c is Str _ then true else false.

Definition is_integer (c : cell) : bool :=
  if c is Num q then bool_decide (Qden (this q) = 1%positive) else false.

Definition dtype_of (s : list cell) : dtype :=
  match s with
  | [] => object
  | _ :: _ =>
      if existsb is_text s then object
      else if forallb is_integer s then int64 else float64
  end.

(** The check of the key columns before a merge.  Two columns of the same
    dtype, two numeric columns, or an empty column against any other, go
    through.  A numeric column against a column with text is refused when
    the values of the latter are string-like: text only, or text with
    floats and missing values; text mixed with integers goes through. *)
Definition numeric (s : list cell) : bool := negb (existsb is_text s).

Definition string_like (s : list cell) : bool :=
  existsb is_text s && negb (existsb is_integer s).

Definition maybe_coerce_merge_keys (lk rk : list cell) (on : string) : outcome unit :=
  match lk, rk with
  | [], _ | _, [] => Ok ()
  | _ :: _, _ :: _ =>
      if (numeric lk && string_like rk) || (string_like lk && numeric rk)
      then Raise (ValueError ("You are trying to merge on " +:+ dtype_name (dtype_of lk) +:+
                              " and " +:+ dtype_name (dtype_of rk) +:+
                              " columns for key '" +:+ on +:+
                              "'. If you wish to proceed you should use pd.concat"))
      else Ok ()
  end.

(** The labels that the suffixes have made equal to an earlier label of
    the same side, where the labels before the renaming were not. *)
Definition duplicated (l : list string) (p : nat) : bool :=
  match l !! p with
  | Some c => bool_decide (c ∈ take p l)
  | None => false
  end.

Definition suffix_duplicates (orig renamed : list string) : list string :=
  omap (λ p, if duplicated renamed p && negb (duplicated orig p)
             then renamed !! p else None)
       (seq 0 (length renamed)).

Fixpoint join_with (sep : string) (l : list string) : string :=
  match l with
  | [] => EmptyString
  | [c] => c
  | c :: l' => c +:+ sep +:+ join_with sep l'
  end.

Definition check_suffixes (dups : list string) : outcome unit :=
  match dups with
  | [] => Ok ()
  | _ :: _ =>
      Raise (ValueError ("Passing 'suffixes' which cause duplicate columns {" +:+
                         join_with ", " (repr <$> dups) +:+ "} is not allowed."))
  end.

(** [pd.merge(left, right, left_on=on, right_on=on, how="inner")].  The key
    is looked up in the right frame, then in the left one; the key columns
    are checked; then there is one output row per pair of a left row and a
    right row with matching keys, in the order of the left rows; at last
    the suffixes are checked ([MergeError] is a [ValueError]). *)
Definition merge (left right : frame) (on : string) : outcome frame :=
  j ← label_loc (columns right) on;
  i ← label_loc (columns left) on;
  maybe_coerce_merge_keys (cell_at i <$> rows left) (cell_at j <$> rows right) on;;
  let lc := columns left in
  let rc := columns right in
  check_suffixes (suffix_duplicates lc (llabels lc rc on) ++
                  suffix_duplicates (delete j rc) (rlabels lc rc on j));;
  Ok {| columns := merged_columns lc rc on j;
        rows := l ← rows left;
                (λ r, l ++ delete j r) <$>
                  filter (λ r, key_match (cell_at i l) (cell_at j r)) (rows right) |}.
Arguments merge : simpl never.

(** [str.strip()] on a column label (ASCII white space). *)
Fixpoint lstrip (s : string) : string :=
  match s with
  | String a s' => if Ascii.is_space a then lstrip s' else s
  | EmptyString => s
  end.

Definition strip (s : string) : string :=
  String.rev (lstrip (String.rev (lstrip s))).

End pd.

(** ** scikit-learn's KMeans on arrays of rationals *)

Module kmeans.

(** A sample or a centre: one coordinate per feature. *)
Abbreviation point := (list Qc).

(** [check_array]: the frame as a float array.  Text that is not a number
    cannot be converted; after the conversion a missing value is refused;
    an array needs at least one sample and one feature. *)
Fixpoint as_float (r : list cell) : outcome (list (option Qc)) :=
  match r with
  | [] => Ok []
  | Str t :: _ => Raise (ValueError ("could not convert string to float: " +:+ t))
  | c :: r' =>
      match as_float r' with
      | Ok xs => Ok ((if c is Num q then Some q else None) :: xs)
      | Raise e => Raise e
      end
  end.

Fixpoint as_float_array (rs : list (list cell)) : outcome (list (list (option Qc))) :=
  match rs with
  | [] => Ok []
  | r :: rs' =>
      match as_float r with
      | Ok xs =>
          match as_float_array rs' with
          | Ok xss => Ok (xs :: xss)
          | Raise e => Raise e
          end
      | Raise e => Raise e
      end
  end.

Definition all_finite (xss : list (list (option Qc))) : option (list point) :=
  mapM (mapM id) xss.

Definition check_array (X : DataFrame) : outcome (list point) :=
  match as_float_array (rows X) with
  | Raise e => Raise e
  | Ok xss =>
      match all_finite xss with
      | None => Raise (ValueError "Input X contains NaN.")
      | Some ps =>
          if (length ps =? 0)%nat
          then Raise (ValueError "Found array with 0 sample(s)")
          else if (length (columns X) =? 0)%nat
          then Raise (ValueError "Found array with 0 feature(s)")
          else Ok ps
      end
  end.

(** Squared Euclidean distance. *)
Definition dist2 (p c : point) : Qc :=
  pd.sum (zip_with (λ x y, (x - y) * (x - y)) p c).

(** Index of the nearest centre; the lowest index wins a tie. *)
Fixpoint nearest (p : point) (centers : list point) : nat :=
  match centers with
  | [] => 0
  | c :: centers' =>
      match centers' with
      | [] => 0
      | _ :: _ =>
          let j := nearest p centers' in
          if decide (dist2 p c ≤ dist2 p (centers' !!! j)) then 0%nat else S j
      end
  end.

Definition assign (X : list point) (centers : list point) : list nat :=
  (λ p, nearest p centers) <$> X.

Definition members (X : list point) (labels : list nat) (j : nat) : list point :=
  fst <$> filter (λ pl, pl.2 = j) (zip X labels).

(** Mean of a non-empty list of samples, feature by feature. *)
Definition centroid (n_features : nat) (ps : list point) : point :=
  (λ f, pd.average ((λ p : point, p !!! f) <$> ps)) <$> seq 0 n_features.

(** Recompute each centre as the mean of its members; a centre without
    members stays where it is. *)
Definition update (n_features : nat) (X : list point) (labels : list nat)
    (centers : list point) : list point :=
  imap (λ j c, match members X labels j with
               | [] => c
               | ps => centroid n_features ps
               end) centers.

Definition center_shift_tot (old new : list point) : Qc :=
  pd.sum (zip_with dist2 old new).

(** [tol] scaled by the mean variance of the features, as [fit] does. *)
Definition variance (xs : list Qc) : Qc :=
  pd.average ((λ x, (x - pd.average xs) * (x - pd.average xs)) <$> xs).

Definition tolerance (n_features : nat) (X : list point) (tol : Qc) : Qc :=
  pd.average ((λ f, variance ((λ p : point, p !!! f) <$> X)) <$> seq 0 n_features) * tol.

(** Modelled from the spec: the body of scikit-learn's [KMeans.fit] is not
    part of the sources; the spec (4.2) describes it as assign-to-nearest-
    centre and recompute-centre, iterated to convergence.  Lloyd's
    iteration: assign to the nearest centre, recompute the centres, stop
    when the labels repeat or the centres move by at most the tolerance, and
    in any case after [max_iter] rounds. *)
Fixpoint lloyd (max_iter n_features : nat) (X : list point) (tol : Qc)
    (centers : list point) (labels_old : option (list nat)) : list point :=
  match max_iter with
  | O => centers
  | S max_iter' =>
      let labels := assign X centers in
      let centers_new := update n_features X labels centers in
      if decide (Some labels = labels_old) then centers_new
      else if decide (center_shift_tot centers centers_new ≤ tol) then centers_new
      else lloyd max_iter' n_features X tol centers_new (Some labels)
  end.
Arguments lloyd : simpl never.

End kmeans.

(** ** The world a run lives in *)

(** What [requests.get] hands back. *)
Record Response := {
  status_code : nat;
  content : string
}.

(** folium's objects, kept as data rather than as rendered HTML. *)
Record Icon := {
  color : string;
  icon : string
}.

(** A piece of a popup: literal text of the f-string, or an interpolated
    cell. *)
Inductive fragment :=
  | Lit (s : string)
  | Val (c : cell).

Record Marker := {
  location : Qc * Qc;
  popup : list fragment;
  marker_icon : Icon
}.

Record Map := {
  map_location : Qc * Qc;
  zoom_start : nat;
  marker_cluster : list Marker;
  children : list Marker
}.

(** The plotly figure of the chart: the rows (Metric, Before, After) of
    [impact_data] and the fixed layout. *)
Record Figure := {
  impact_data : list (string * option cell * option cell);
  barmode : string;
  title : string;
  height : nat
}.

(** What Streamlit has put on the page. *)
Inductive widget :=
  | Text (s : string)
  | Html (doc : Map) (height : nat)
  | PlotlyChart (fig : Figure).

Abbreviation loc := nat.

(** What a run can read and change: the answer of the server to a GET of a
    URL, the frames on the heap, the files on disk (only maps are saved),
    the widgets on Streamlit's page, and the state of numpy's global
    generator. *)
Record world := {
  network : string → outcome Response;
  frames : gmap loc DataFrame;
  files : gmap string Map;
  display : list widget;
  np_random : N
}.

Definition set_frames (f : gmap loc DataFrame → gmap loc DataFrame) (w : world) : world :=
  {| network := network w; frames := f (frames w); files := files w;
     display := display w; np_random := np_random w |}.

Definition set_files (f : gmap string Map → gmap string Map) (w : world) : world :=
  {| network := network w; frames := frames w; files := f (files w);
     display := display w; np_random := np_random w |}.

Definition set_display (f : list widget → list widget) (w : world) : world :=
  {| network := network w; frames := frames w; files := files w;
     display := f (display w); np_random := np_random w |}.

Definition set_np_random (f : N → N) (w : world) : world :=
  {| network := network w; frames := frames w; files := files w;
     display := display w; np_random := f (np_random w) |}.

(** ** Computations: state and exceptions *)

Definition M (A : Type) : Type := world → outcome A * world.

Global Instance M_ret : MRet M := λ A a w, (Ok a, w).
Global Instance M_bind : MBind M := λ A B f m w,
  match m w with
  | (Ok a, w') => f a w'
  | (Raise e, w') => (Raise e, w')
  end.

Definition raise {A} (e : Exception) : M A := λ w, (Raise e, w).

Definition lift {A} (o : outcome A) : M A := λ w, (o, w).

(** [try: body except Exception as e: handler e]. *)
Definition try_except {A} (body : M A) (handler : Exception → M A) : M A := λ w,
  match body w with
  | (Ok a, w') => (Ok a, w')
  | (Raise e, w') => handler e w'
  end.

(** *** Streamlit, requests and files *)

Module st.
Definition write (s : string) : M unit :=
  λ w, (Ok (), set_display (λ d, d ++ [Text s]) w).
Definition html (doc : Map) (height : nat) : M unit :=
  λ w, (Ok (), set_display (λ d, d ++ [Html doc height]) w).
Definition plotly_chart (fig : Figure) : M unit :=
  λ w, (Ok (), set_display (λ d, d ++ [PlotlyChart fig]) w).
End st.

Module requests.
Definition get (url : string) : M Response := λ w, (network w url, w).
End requests.

(** [open(path, 'r').read()]. *)
Definition open_read (path : string) : M Map := λ w,
  match files w !! path with
  | Some doc => (Ok doc, w)
  | None => (Raise (OSError ("No such file or directory: " +:+ path)), w)
  end.

(** *** Frames on the heap *)

Definition new_frame (d : DataFrame) : M loc := λ w,
  let l := fresh (dom (frames w)) in
  (Ok l, set_frames (insert l d) w).

(** Reading the frame a variable refers to.  A Python variable always
    refers to an object; a location without a frame, which only the model
    has, is answered with an exception. *)
Definition frame_of (df : loc) : M DataFrame := λ w,
  match frames w !! df with
  | Some d => (Ok d, w)
  | None => (Raise (ValueError "no such object"), w)
  end.

(** [df.columns = labels]: the frame is changed in place. *)
Definition set_columns (df : loc) (labels : list string) : M unit := λ w,
  match frames w !! df with
  | Some d => (Ok (), set_frames (insert df {| columns := labels; rows := rows d |}) w)
  | None => (Raise (ValueError "no such object"), w)
  end.

Definition df_empty (df : loc) : M bool := d ← frame_of df; mret (pd.empty d).

Definition df_columns (df : loc) : M (list string) := d ← frame_of df; mret (columns d).

(** [df[label].mean()]. *)
Definition df_mean (df : loc) (label : string) : M cell :=
  d ← frame_of df; lift (pd.getitem d label ≫= pd.mean).

(** [df[[a, b]]] is a new frame. *)
Definition df_getitem2 (df : loc) (a b : string) : M loc :=
  d ← frame_of df; X ← lift (pd.getitem2 d a b); new_frame X.

Definition pd_merge (left right : loc) (on : string) : M loc :=
  l ← frame_of left; r ← frame_of right;
  merged ← lift (pd.merge l r on); new_frame merged.

(** [x * k] for a Python value [x] and a float [k]. *)
Definition mul (x : cell) (k : Qc) : outcome cell :=
  match x with
  | Num q => Ok (Num (q * k))
  | NaN => Ok NaN
  | Str _ => Raise (TypeError "can't multiply sequence by non-int of type 'float'")
  end.

(** ** The stages of app.py *)

Section app.

(** [pd.read_excel(BytesIO(content), sheet_name=..., engine='openpyxl')]:
    the parser of the workbook, a function of the bytes and the sheet
    name; a malformed workbook or a missing sheet makes it raise. *)
Variable read_excel : string → string → outcome DataFrame.

(** The pseudo-random generator behind the initial centres: the [i]-th
    draw of the generator seeded with [seed]. *)
Variable rng : N → nat → nat.

Definition pd_read_excel (content sheet_name : string) : M loc :=
  d ← lift (read_excel content sheet_name); new_frame d.

(** *** KMeans(n_clusters, random_state).fit(X) *)

Record KMeans := { cluster_centers_ : list kmeans.point }.

(** A given [random_state] seeds a generator of its own; without one,
    numpy's global generator is used and advanced. *)
Definition check_random_state (random_state : option N) : M N :=
  match random_state with
  | Some seed => mret seed
  | None => λ w, (Ok (np_random w), set_np_random N.succ w)
  end.

(** Modelled from the spec: the initialisation of scikit-learn's
    [KMeans.fit] is not part of the sources; the spec (4.2) has a fixed
    random seed decide it.  The initial centres are samples of [X], picked
    by the draws of the seeded generator. *)
Definition init_centroids (seed : N) (n_clusters : nat) (X : list kmeans.point) :
    list kmeans.point :=
  (λ i, X !!! (rng seed i `mod` length X)%nat) <$> seq 0 n_clusters.

(** [fit] validates [n_clusters], converts the frame, checks that there
    are enough samples, and runs at most [max_iter=300] rounds with
    [tol=1e-4]. *)
Definition KMeans_fit (n_clusters : nat) (random_state : option N) (X : loc) : M KMeans :=
  if (n_clusters =? 0)%nat
  then raise (ValueError "The 'n_clusters' parameter of KMeans must be an int in the range [1, inf)")
  else
    d ← frame_of X;
    samples ← lift (kmeans.check_array d);
    if (length samples <? n_clusters)%nat
    then raise (ValueError "n_samples should be >= n_clusters")
    else
      seed ← check_random_state random_state;
      let n_features := length (columns d) in
      let centers := init_centroids seed n_clusters samples in
      let tol := kmeans.tolerance n_features samples (frac 1 10000) in
      mret {| cluster_centers_ := kmeans.lloyd 300 n_features samples tol centers None |}.

(** *** load_data *)

Definition load_data (url : string) : M loc :=
  try_except
    (st.write ("Loading data from " +:+ url +:+ "...");;
     response ← requests.get url;
     if decide (status_code response = 200%nat) then
       lat_long_data ← pd_read_excel (content response) "lat long";
       measurement_data ← pd_read_excel (content response) "measurement data";
       merged_data ← pd_merge lat_long_data measurement_data "school_id_giga";
       labels ← df_columns merged_data;
       set_columns merged_data (pd.strip <$> labels);;
       st.write "Data loaded successfully";;
       mret merged_data
     else
       st.write ("Failed to load data. Status code: " +:+ pretty (status_code response));;
       new_frame pd.DataFrame)
    (λ e,
       st.write ("Error loading data: " +:+ exc_str e);;
       new_frame pd.DataFrame).

(** *** find_data_center *)

Definition find_data_center (df : loc) (n_clusters : nat) : M (option (list kmeans.point)) :=
  e ← df_empty df;
  if e : bool then
    st.write "Dataframe is empty, skipping clustering";;
    mret None
  else
    X ← df_getitem2 df "latitude" "longitude";
    kmeans ← KMeans_fit n_clusters (Some 0%N) X;
    mret (Some (cluster_centers_ kmeans)).

(** *** plot_map *)

(** [center[i][j]]. *)
Definition item2 (center : option (list kmeans.point)) (i j : nat) : outcome Qc :=
  match center with
  | None => Raise (TypeError "'NoneType' object is not subscriptable")
  | Some c =>
      match c !! i with
      | None => Raise (IndexError "index out of bounds")
      | Some p =>
          match p !! j with
          | None => Raise (IndexError "index out of bounds")
          | Some x => Ok x
          end
      end
  end.

(** [row[label]] and [row.get(label, default)] for a row of a frame with
    the given labels. *)
Definition row_getitem (labels : list string) (row : list cell) (label : string) : outcome cell :=
  match pd.get_loc label labels with
  | Some i => Ok (pd.cell_at i row)
  | None => Raise (KeyError label)
  end.

Definition row_get (labels : list string) (row : list cell) (label : string) (dflt : cell) : cell :=
  match pd.get_loc label labels with
  | Some i => pd.cell_at i row
  | None => dflt
  end.

(** folium accepts a location of two numbers only. *)
Definition validate_location (lat lon : cell) : outcome (Qc * Qc) :=
  match lat, lon with
  | Num a, Num b => Ok (a, b)
  | Str _, _ | _, Str _ => Raise (ValueError "Location should consist of two numerical values")
  | _, _ => Raise (ValueError "Location values cannot contain NaNs")
  end.

(** The marker of one school: the body of the loop over [df.iterrows()]. *)
Definition school_marker (labels : list string) (row : list cell) : outcome Marker :=
  lat ← row_getitem labels row "latitude";
  lon ← row_getitem labels row "longitude";
  let name := row_get labels row "school_name" (Str "N/A") in
  download ← row_getitem labels row "download_speed";
  upload ← row_getitem labels row "upload_speed";
  latency ← row_getitem labels row "latency";
  at_ ← validate_location lat lon;
  mret {| location := at_;
          popup := [Lit "School Name: "; Val name; Lit "<br>";
                    Lit "Download Speed: "; Val download; Lit " Mbps<br>";
                    Lit "Upload Speed: "; Val upload; Lit " Mbps<br>";
                    Lit "Latency: "; Val latency; Lit " ms"];
          marker_icon := {| color := "blue"; icon := "info-sign" |} |}.

Fixpoint school_markers (labels : list string) (rs : list (list cell)) : outcome (list Marker) :=
  match rs with
  | [] => mret []
  | row :: rs' =>
      m ← school_marker labels row;
      ms ← school_markers labels rs';
      mret (m :: ms)
  end.

(** [map.save(path)]. *)
Definition save (doc : Map) (path : string) : M unit :=
  λ w, (Ok (), set_files (insert path doc) w).

Definition plot_map (df : loc) (center : option (list kmeans.point)) : M (option string) :=
  e ← df_empty df;
  if e : bool then
    st.write "Dataframe is empty, skipping map plotting";;
    mret None
  else
    lat ← lift (item2 center 0 0);
    lon ← lift (item2 center 0 1);
    d ← frame_of df;
    schools ← lift (school_markers (columns d) (rows d));
    lat' ← lift (item2 center 0 0);
    lon' ← lift (item2 center 0 1);
    let map := {| map_location := (lat, lon);
                  zoom_start := 10;
                  marker_cluster := schools;
                  children := [{| location := (lat', lon');
                                  popup := [Lit "Proposed Data Center"];
                                  marker_icon := {| color := "red"; icon := "cloud" |} |}] |} in
    save map "map.html";;
    mret (Some "map.html").

(** *** calculate_impact *)

Definition ImpactSummary : Type := cell * cell * cell * cell * cell * cell.

Definition calculate_impact (df : loc) (center : option (list kmeans.point)) :
    M (option ImpactSummary) :=
  e ← df_empty df;
  if e : bool then
    st.write "Dataframe is empty, skipping impact calculation";;
    mret None
  else
    avg_latency_before ← df_mean df "latency";
    avg_download_before ← df_mean df "download_speed";
    avg_upload_before ← df_mean df "upload_speed";
    latency_reduction ← lift (mul avg_latency_before (frac 8 10));
    download_increase ← lift (mul avg_download_before (frac 12 10));
    upload_increase ← lift (mul avg_upload_before (frac 12 10));
    mret (Some (latency_reduction, download_increase, upload_increase,
                avg_latency_before, avg_download_before, avg_upload_before)).

(** *** display_3d_bar_chart *)

Definition display_3d_bar_chart
    (latency_reduction download_increase upload_increase
     avg_latency_before avg_download_before avg_upload_before : option cell) : M unit :=
  match latency_reduction with
  | None => st.write "No data to display in the chart."
  | Some _ =>
      let metrics := ["Latency (ms)"; "Download Speed (Mbps)"; "Upload Speed (Mbps)"] in
      let before := [avg_latency_before; avg_download_before; avg_upload_before] in
      let after := [latency_reduction; download_increase; upload_increase] in
      st.plotly_chart
        {| impact_data := zip (zip metrics before) after;
           barmode := "group";
           title := "Impact of Data Center on Latency and Bandwidth";
           height := 400 |}
  end.

(** *** main *)

Definition url : string :=
  "https://huggingface.co/spaces/engralimalik/lace/resolve/main/data%20barbados.xlsx".

Definition main : M unit :=
  df ← load_data url;
  e ← df_empty df;
  if e : bool then
    st.write "No data to process, exiting application."
  else
    center ← find_data_center df 1;
    match center with
    | None => st.write "Could not find data center, exiting application."
    | Some _ =>
        map_file ← plot_map df center;
        match map_file with
        | Some path =>
            if decide (path = EmptyString) then mret ()
            else doc ← open_read path; st.html doc 600
        | None => mret ()
        end;;
        impact ← calculate_impact df center;
        match impact with
        | None => raise (TypeError "cannot unpack non-iterable NoneType object")
        | Some (latency_reduction, download_increase, upload_increase,
                avg_latency_before, avg_download_before, avg_upload_before) =>
            display_3d_bar_chart
              (Some latency_reduction) (Some download_increase) (Some upload_increase)
              (Some avg_latency_before) (Some avg_download_before) (Some avg_upload_before)
        end
    end.

End app.

(** * Vocabulary of the properties *)

Close Scope Qc_scope.

(** ** Worlds and what a computation does to them *)

(** The world after one more line of text on the page. *)
Definition say (line : string) (w : world) : world :=
  set_display (λ d, d ++ [Text line]) w.

(** [extends w w' out written]: from [w] to [w'] the lines [out] were added
    to the page and the files [written] were saved; the network and numpy's
    generator are as before, and every frame of [w] is in [w'] unchanged. *)
Definition extends (w w' : world) (out : list widget) (written : gmap string Map) : Prop :=
  display w' = display w ++ out ∧
  files w' = written ∪ files w ∧
  network w' = network w ∧
  np_random w' = np_random w ∧
  frames w ⊆ frames w'.

(** A stage is determined by the frame [d] when its result, its output and
    the files it saves are the same in every world that holds [d], at
    whatever location. *)
Definition determined {A} (d : DataFrame) (stage : loc → M A) : Prop :=
  ∃ (r : outcome A) (out : list widget) (written : gmap string Map),
    ∀ w df, frames w !! df = Some d →
      ∃ w', stage df w = (r, w') ∧ extends w w' out written.

(** ** The Loader and [main], taken apart *)

(** The rows that [pd.merge] builds from the left rows [A] and the right
    rows [B] with key functions [f] and [g]. *)
Definition joined {R} (f g : list cell → cell) (h : list cell → list cell → R)
    (A B : list (list cell)) : list R :=
  l ← A; h l <$> filter (λ r, pd.key_match (f l) (g r)) B.

(** The pairs of a row of [A] and a row of [B] that carry the same key,
    the key being column [i] of [A] and column [j] of [B]. *)
Definition matching_pairs (i j : nat) (A B : list (list cell)) :
    list (list cell * list cell) :=
  filter (λ p, pd.cell_at i p.1 = pd.cell_at j p.2) (list_prod A B).

(** The two sheets of a workbook, merged. *)
Definition sheets (read_excel : string → string → outcome DataFrame)
    (resp : Response) : outcome DataFrame :=
  A ← read_excel (content resp) "lat long";
  B ← read_excel (content resp) "measurement data";
  pd.merge A B "school_id_giga".

(** A merged frame once its labels are stripped. *)
Definition stripped (m : DataFrame) : DataFrame :=
  {| columns := pd.strip <$> columns m; rows := rows m |}.

(** The Dataset a load yields and the lines it writes, read off the
    branches of [load_data], as a function of the server's answer. *)
Definition loaded (read_excel : string → string → outcome DataFrame) (u : string)
    (answer : outcome Response) : DataFrame * list widget :=
  let loading := Text ("Loading data from " +:+ u +:+ "...") in
  match answer with
  | Raise e => (pd.DataFrame, [loading; Text ("Error loading data: " +:+ exc_str e)])
  | Ok resp =>
      if decide (status_code resp = 200) then
        match sheets read_excel resp with
        | Ok m => (stripped m, [loading; Text "Data loaded successfully"])
        | Raise e => (pd.DataFrame, [loading; Text ("Error loading data: " +:+ exc_str e)])
        end
      else
        (pd.DataFrame,
         [loading; Text ("Failed to load data. Status code: " +:+ pretty (status_code resp))])
  end.

(** [main] after the load, with the saving and the embedding of the map
    taken together. *)
Definition after_load (rng : N → nat → nat) (df : loc) : M unit :=
  e ← df_empty df;
  if e : bool then
    st.write "No data to process, exiting application."
  else
    center ← find_data_center rng df 1;
    match center with
    | None => st.write "Could not find data center, exiting application."
    | Some _ =>
        (map_file ← plot_map df center;
         match map_file with
         | Some path =>
             if decide (path = EmptyString) then mret ()
             else doc ← open_read path; st.html doc 600
         | None => mret ()
         end);;
        impact ← calculate_impact df center;
        match impact with
        | None => raise (TypeError "cannot unpack non-iterable NoneType object")
        | Some (latency_reduction, download_increase, upload_increase,
                avg_latency_before, avg_download_before, avg_upload_before) =>
            display_3d_bar_chart
              (Some latency_reduction) (Some download_increase) (Some upload_increase)
              (Some avg_latency_before) (Some avg_download_before) (Some avg_upload_before)
        end
    end.

(** ** Convex hulls *)

(** The samples with the given latitudes and longitudes. *)
Definition coords (lats lons : list Qc) : list kmeans.point :=
  zip_with (λ a b, [a; b]) lats lons.

(** The combination of the points [ps] with the given weights, feature by
    feature. *)
Definition convex_combination (n_features : nat) (weights : list Qc)
    (ps : list kmeans.point) : kmeans.point :=
  (λ f, pd.sum (zip_with (λ w (p : kmeans.point), w * p !!! f)%Qc weights ps))
    <$> seq 0 n_features.

(** [c] is a combination of the points [ps] with non-negative weights that
    add up to one. *)
Definition in_convex_hull (c : kmeans.point) (ps : list kmeans.point) : Prop :=
  ∃ weights : list Qc,
    length weights = length ps ∧
    Forall (λ w, 0 ≤ w)%Qc weights ∧
    pd.sum weights = 1%Qc ∧
    c = convex_combination (length c) weights ps.

(** ** Sample frames and worlds *)

(** A world in which the only frame is [pd.DataFrame()]. *)
Definition blank_world : world :=
  {| network := λ _, Raise (RequestException "unreachable");
     frames := {[ 0%nat := pd.DataFrame ]};
     files := ∅; display := []; np_random := 0%N |}.

(** One school, and two measurements of it. *)
Definition one_school : DataFrame :=
  {| columns := ["school_id_giga"; "latitude"; "longitude"];
     rows := [[Num 1; Num (frac 131 10); Num (frac (-596) 10)]] |}.

Definition two_measurements : DataFrame :=
  {| columns := ["school_id_giga"; "download_speed"; "upload_speed"; "latency"];
     rows := [[Num 1; Num (frac 10 1); Num (frac 2 1); Num (frac 50 1)];
              [Num 1; Num (frac 12 1); Num (frac 3 1); Num (frac 40 1)]] |}.

(** One measurement of the school of [one_school]. *)
Definition one_measurement : DataFrame :=
  {| columns := ["school_id_giga"; "download_speed"; "upload_speed"; "latency"];
     rows := [[Num 1; Num (frac 10 1); Num (frac 2 1); Num (frac 50 1)]] |}.

(** Two sheets without a common identifier. *)
Definition other_measurements : DataFrame :=
  {| columns := ["school_id_giga"; "download_speed"; "upload_speed"; "latency"];
     rows := [[Num (frac 7 1); Num (frac 12 1); Num (frac 3 1); Num (frac 40 1)]] |}.

(** What their merge gives: the labels and no row. *)
Definition no_match : DataFrame :=
  {| columns := ["school_id_giga"; "latitude"; "longitude";
                 "download_speed"; "upload_speed"; "latency"];
     rows := [] |}.

(** A parser for a workbook that holds the sheets [A] and [B]. *)
Definition workbook (A B : DataFrame) (content sheet_name : string) : outcome DataFrame :=
  if decide (sheet_name = "lat long") then Ok A
  else if decide (sheet_name = "measurement data") then Ok B
  else Raise (ValueError ("Worksheet named " +:+ sheet_name +:+ " not found")).

(** A world whose server answers every request with status 200. *)
Definition online : world :=
  {| network := λ _, Ok {| status_code := 200; content := "PK" |};
     frames := ∅; files := ∅; display := []; np_random := 0%N |}.

(** Two surveyed schools, merged. *)
Definition survey : DataFrame :=
  {| columns := ["school_id_giga"; "latitude"; "longitude"; "school_name";
                 "download_speed"; "upload_speed"; "latency"];
     rows := [[Num 1; Num (frac 131 10); Num (frac (-596) 10); Str "Alpha";
               Num (frac 10 1); Num (frac 2 1); Num (frac 50 1)];
              [Num (frac 2 1); Num (frac 133 10); Num (frac (-594) 10); Str "Beta";
               Num (frac 30 1); Num (frac 4 1); Num (frac 70 1)]] |}.

Definition surveyed : world :=
  {| network := λ _, Raise (RequestException "unreachable");
     frames := {[ 0%nat := survey ]};
     files := ∅; display := []; np_random := 0%N |}.

(** The single school of the spec's end-to-end scenario. *)
Definition single : DataFrame :=
  {| columns := ["school_id_giga"; "latitude"; "longitude";
                 "download_speed"; "upload_speed"; "latency"];
     rows := [[Num 1; Num (frac 131 10); Num (frac (-596) 10);
               Num (frac 10 1); Num (frac 2 1); Num (frac 50 1)]] |}.

Definition single_world : world :=
  {| network := λ _, Raise (RequestException "unreachable");
     frames := {[ 0%nat := single ]};
     files := ∅; display := []; np_random := 0%N |}.

(** A survey in which one latitude was typed as text. *)
Definition garbled : DataFrame :=
  {| columns := ["school_id_giga"; "latitude"; "longitude";
                 "download_speed"; "upload_speed"; "latency"];
     rows := [[Num 1; Str "13.1 N"; Num (frac (-596) 10);
               Num (frac 10 1); Num (frac 2 1); Num (frac 50 1)]] |}.

Definition garbled_world : world :=
  {| network := λ _, Raise (RequestException "unreachable");
     frames := {[ 0%nat := garbled ]};
     files := ∅; display := []; np_random := 0%N |}.

(** A second world for the same server: another page, another heap, another
    state of the global generator. *)
Definition online_later : world :=
  {| network := network online;
     frames := {[ 0%nat := survey; 5%nat := garbled ]};
     files := ∅;
     display := [Text "an earlier run"];
     np_random := 42%N |}.

(** A world whose heap holds the frame [d], at location 0, and nothing
    else. *)
Definition holding (d : DataFrame) : world :=
  {| network := λ _, Raise (RequestException "unreachable");
     frames := {[ 0%nat := d ]};
     files := ∅; display := []; np_random := 0%N |}.

(** The sheet of [one_school] with a blank after the key's label. *)
Definition blank_after_key : DataFrame :=
  {| columns := ["school_id_giga "; "latitude"; "longitude"];
     rows := rows one_school |}.

(** A sheet of schools whose longitudes are missing. *)
Definition no_longitude : DataFrame :=
  {| columns := ["school_id_giga"; "latitude"];
     rows := [[Num 1; Num (frac 131 10)]] |}.

(** A world whose server answers 404 to every request. *)
Definition not_found : world :=
  {| network := λ _, Ok {| status_code := 404; content := EmptyString |};
     frames := ∅; files := ∅; display := []; np_random := 0%N |}.

(** [pd.lstrip] on the list of characters of a label. *)
Fixpoint drop_spaces (l : list Ascii.ascii) : list Ascii.ascii :=
  match l with
  | a :: l' => if Ascii.is_space a then drop_spaces l' else l
  | [] => l
  end.

(** A list of characters that does not begin with white space. *)
Definition clean (l : list Ascii.ascii) : Prop :=
  match l with
  | a :: _ => Ascii.is_space a = false
  | [] => True
  end.

(** * Properties *)

(** ** Running computations *)

Lemma bind_ok {A B} (m : M A) (f : A → M B) w a w' :
  m w = (Ok a, w') → (m ≫= f) w = f a w'.
Proof. intros H. unfold mbind, M_bind. by rewrite H. Qed.

Lemma bind_raise {A B} (m : M A) (f : A → M B) w e w' :
  m w = (Raise e, w') → (m ≫= f) w = (Raise e, w').
Proof. intros H. unfold mbind, M_bind. by rewrite H. Qed.

Lemma frame_of_ok w df d : frames w !! df = Some d → frame_of df w = (Ok d, w).
Proof. intros H. unfold frame_of. by rewrite H. Qed.

Lemma df_empty_ok w df d : frames w !! df = Some d → df_empty df w = (Ok (pd.empty d), w).
Proof. intros H. unfold df_empty. by rewrite (bind_ok _ _ _ _ _ (frame_of_ok _ _ _ H)). Qed.

Lemma fresh_frame w : frames w !! fresh (dom (frames w)) = None.
Proof. apply not_elem_of_dom, is_fresh. Qed.

Lemma new_frame_lookup w d :
  frames (new_frame d w).2 !! (fresh (dom (frames w))) = Some d.
Proof. simpl. apply lookup_insert_eq. Qed.

Lemma new_frame_subseteq w d : frames w ⊆ frames (new_frame d w).2.
Proof. simpl. apply insert_subseteq, fresh_frame. Qed.

(** ** The Locator on an empty Dataset *)

(** C6.  Called on an empty Dataset, [find_data_center] returns the
    sentinel [None]: it raises nothing, returns no centre, and only reports
    that clustering is skipped. *)
Theorem find_data_center_empty rng w df d n_clusters :
  frames w !! df = Some d →
  pd.empty d = true →
  find_data_center rng df n_clusters w =
    (Ok None, say "Dataframe is empty, skipping clustering" w).
Proof.
  intros Hdf Hempty. unfold find_data_center.
  rewrite (bind_ok _ _ _ _ _ (df_empty_ok _ _ _ Hdf)), Hempty.
  reflexivity.
Qed.

Lemma find_data_center_empty_witness :
  find_data_center (λ _ _, 0%nat) 0 1 blank_world =
    (Ok None, say "Dataframe is empty, skipping clustering" blank_world).
Proof.
  apply (find_data_center_empty (λ _ _, 0%nat) blank_world 0 pd.DataFrame 1);
    reflexivity.
Defined.

(** ** The Estimator *)



Lemma getitem_length d label s :
  pd.getitem d label = Ok s → length s = length (rows d).
Proof.
  unfold pd.getitem. destruct (pd.get_loc label (columns d)); [|done].
  intros [= <-]. apply length_fmap.
Qed.

Lemma empty_false_rows d : pd.empty d = false → rows d ≠ [].
Proof.
  unfold pd.empty. intros H Hnil. rewrite Hnil in H. simpl in H.
  by rewrite orb_true_r in H.
Qed.

(** A numeric column of a non-empty frame has at least one value. *)
Lemma numeric_column_nonempty d label qs :
  pd.empty d = false → pd.getitem d label = Ok (Num <$> qs) → qs ≠ [].
Proof.
  intros Hne Hcol ->. apply getitem_length in Hcol.
  apply empty_false_rows in Hne. destruct (rows d); [done|]. discriminate Hcol.
Qed.



(** C8.  The Estimator does not look at the centre: whatever two centres
    it is given, on the same Dataset and in the same world it returns the
    same ImpactSummary (or fails alike) and leaves the same world. *)
Theorem calculate_impact_ignores_center w df center1 center2 :
  calculate_impact df center1 w = calculate_impact df center2 w.
Proof. reflexivity. Qed.

(** ** The Loader's inner join *)

Section join.

Context {R : Type} (f g : list cell → cell) (h : list cell → list cell → R).

Local Abbreviation joined := (joined f g h).

Lemma matches_at_most_one k (B : list (list cell)) :
  NoDup (g <$> B) → length (filter (λ r, pd.key_match k (g r)) B) ≤ 1.
Proof.
  induction B as [|r B IH]; csimpl; [lia|].
  rewrite NoDup_cons. intros [Hr HB]. rewrite filter_cons.
  destruct (decide _) as [Hk|Hk]; [|by apply IH].
  apply bool_decide_unpack in Hk. simpl.
  destruct (filter _ B) as [|r' rest] eqn:Hf; [simpl; lia|].
  assert (r' ∈ filter (λ r, pd.key_match k (g r)) B) as Hin
    by (rewrite Hf; left).
  apply list_elem_of_filter in Hin as [Hk' Hin].
  apply bool_decide_unpack in Hk'.
  destruct Hr. rewrite <- Hk, Hk'. by apply list_elem_of_fmap_2.
Qed.

Lemma joined_length_left (A B : list (list cell)) :
  NoDup (g <$> B) → length (joined A B) ≤ length A.
Proof.
  intros HB. unfold joined. induction A as [|l A IH]; [done|].
  rewrite bind_cons, length_app, length_fmap. simpl.
  pose proof (matches_at_most_one (f l) B HB). lia.
Qed.

Lemma matches_split k ks (B : list (list cell)) :
  k ∉ ks →
  length (filter (λ r, g r ∈ k :: ks) B) =
    length (filter (λ r, pd.key_match k (g r)) B) + length (filter (λ r, g r ∈ ks) B).
Proof.
  intros Hk. induction B as [|r B IH]; [done|].
  rewrite !filter_cons.
  destruct (decide (pd.key_match k (g r))) as [Hm|Hm].
  - apply bool_decide_unpack in Hm.
    rewrite decide_True by (rewrite <- Hm; left).
    rewrite decide_False by (by rewrite <- Hm).
    simpl. by rewrite IH.
  - assert (k ≠ g r) as Hne by (intros ->; apply Hm; by apply bool_decide_pack).
    destruct (decide (g r ∈ ks)) as [Hin|Hin].
    + rewrite decide_True by (by right). simpl. rewrite IH. lia.
    + rewrite decide_False; [done|].
      rewrite elem_of_cons. intros [?|?]; congruence.
Qed.

Lemma joined_length_right (A B : list (list cell)) :
  NoDup (f <$> A) → length (joined A B) ≤ length B.
Proof.
  intros HA. unfold joined.
  assert (length (l ← A; h l <$> filter (λ r, pd.key_match (f l) (g r)) B) =
          length (filter (λ r, g r ∈ f <$> A) B)) as ->;
    [|apply length_filter].
  induction A as [|l A IH].
  - csimpl. induction B as [|r B IHB]; [done|].
    rewrite filter_cons_False; [done|]. apply not_elem_of_nil.
  - revert HA. csimpl. rewrite NoDup_cons. intros [Hl HA].
    rewrite length_app, length_fmap, (IH HA).
    by rewrite (matches_split _ _ _ Hl).
Qed.

Lemma elem_of_joined x (A B : list (list cell)) :
  x ∈ joined A B ↔ ∃ l r, l ∈ A ∧ r ∈ B ∧ f l = g r ∧ x = h l r.
Proof.
  unfold joined. rewrite list_elem_of_bind. split.
  - intros (l & Hx & Hl). apply list_elem_of_fmap in Hx as (r & -> & Hr).
    apply list_elem_of_filter in Hr as [Hk Hr].
    apply bool_decide_unpack in Hk. by exists l, r.
  - intros (l & r & Hl & Hr & Hk & ->). exists l. split; [|done].
    apply list_elem_of_fmap_2, list_elem_of_filter. split; [|done].
    by apply bool_decide_pack.
Qed.

End join.

Lemma fresh_insert_ne (h : gmap loc DataFrame) l d : fresh (dom (<[l:=d]> h)) ≠ l.
Proof.
  intros Heq. pose proof (is_fresh (dom (<[l:=d]> h))) as Hfresh.
  rewrite Heq in Hfresh. apply Hfresh. rewrite dom_insert_L. set_solver.
Qed.

(** What a successful load leaves behind: the merged frame with stripped
    labels, two lines on the page, and every earlier frame as it was. *)
Lemma load_data_ok read_excel w u resp A B m :
  network w u = Ok resp →
  status_code resp = 200 →
  read_excel (content resp) "lat long" = Ok A →
  read_excel (content resp) "measurement data" = Ok B →
  pd.merge A B "school_id_giga" = Ok m →
  ∃ df w',
    load_data read_excel u w = (Ok df, w') ∧
    frames w' !! df = Some {| columns := pd.strip <$> columns m; rows := rows m |} ∧
    frames w ⊆ frames w' ∧
    display w' = display w ++
      [Text ("Loading data from " +:+ u +:+ "..."); Text "Data loaded successfully"] ∧
    network w' = network w ∧ files w' = files w ∧ np_random w' = np_random w.
Proof.
  intros Hnet Hstatus HA HB Hm.
  unfold load_data, try_except, pd_read_excel, pd_merge, df_columns, set_columns,
    frame_of, new_frame, lift, st.write, requests.get, mbind, M_bind, mret, M_ret.
  simpl. rewrite Hnet. rewrite decide_True by done. rewrite HA, HB. simpl.
  set (l1 := fresh (dom (frames w))).
  set (h1 := <[l1:=A]> (frames w)).
  set (l2 := fresh (dom h1)).
  assert (l2 ≠ l1) as Hne12 by apply fresh_insert_ne.
  rewrite (lookup_insert_ne h1 l2 l1) by done.
  unfold h1 at 1. rewrite lookup_insert_eq. simpl.
  rewrite lookup_insert_eq. rewrite Hm. simpl.
  set (h2 := <[l2:=B]> h1).
  set (l3 := fresh (dom h2)).
  rewrite !lookup_insert_eq. simpl. rewrite lookup_insert_eq.
  eexists _, _. split; [reflexivity|]. simpl.
  rewrite lookup_insert_eq. split; [done|].
  split; [|split; [by rewrite <- app_assoc|done]].
  rewrite insert_insert_eq.
  assert (frames w !! l1 = None) as H1 by apply fresh_frame.
  assert (h1 !! l2 = None) as H2 by apply not_elem_of_dom, is_fresh.
  assert (h2 !! l3 = None) as H3 by apply not_elem_of_dom, is_fresh.
  etrans; [apply (insert_subseteq _ l1 A H1)|].
  etrans; [apply (insert_subseteq _ l2 B H2)|].
  apply (insert_subseteq _ l3 _ H3).
Qed.

Lemma get_loc_lookup label cols i :
  pd.get_loc label cols = Some i → cols !! i = Some label.
Proof.
  revert i. induction cols as [|c cols IH]; intros i; simpl; [done|].
  destruct (decide (c = label)) as [->|]; [by intros [= <-]|].
  destruct (pd.get_loc label cols) as [i'|]; [|done].
  intros [= <-]. by apply IH.
Qed.

(** *** Labels and their positions *)

Lemma get_locs_head label cols : head (pd.get_locs label cols) = pd.get_loc label cols.
Proof.
  induction cols as [|c cols IH]; simpl; [done|].
  destruct (decide (c = label)); [done|]. simpl.
  rewrite <- IH. by destruct (pd.get_locs label cols).
Qed.

Lemma get_locs_singleton label cols i :
  pd.get_locs label cols = [i] → pd.get_loc label cols = Some i.
Proof. intros H. by rewrite <- get_locs_head, H. Qed.

Lemma get_locs_nil label cols :
  pd.get_locs label cols = [] ↔ pd.get_loc label cols = None.
Proof. rewrite <- get_locs_head. by destruct (pd.get_locs label cols). Qed.

Lemma get_locs_absent label cols : label ∉ cols → pd.get_locs label cols = [].
Proof.
  induction cols as [|c cols IH]; simpl; [done|].
  rewrite not_elem_of_cons. intros [Hne Hnin].
  rewrite decide_False by done. by rewrite IH.
Qed.

Lemma get_loc_absent label cols : pd.get_loc label cols = None ↔ label ∉ cols.
Proof.
  induction cols as [|c cols IH]; simpl.
  - split; [intros _; apply not_elem_of_nil|done].
  - rewrite not_elem_of_cons. destruct (decide (c = label)) as [->|Hne].
    + split; [done|]. by intros [? _].
    + rewrite <- IH. destruct (pd.get_loc label cols); [|by split; [|intros _]].
      split; [done|]. by intros [_ ?].
Qed.

(** Among distinct labels a label has one position at most. *)
Lemma get_locs_NoDup label cols :
  NoDup cols → pd.get_locs label cols = [] ∨ ∃ i, pd.get_locs label cols = [i].
Proof.
  induction cols as [|c cols IH]; simpl; [by left|].
  rewrite NoDup_cons. intros [Hc Hcols].
  destruct (decide (c = label)) as [->|Hne].
  - right. exists 0. by rewrite (get_locs_absent _ _ Hc).
  - destruct (IH Hcols) as [->|[i ->]]; [by left|]. right. by exists (S i).
Qed.

Lemma label_loc_ok cols on i :
  pd.label_loc cols on = Ok i → pd.get_loc on cols = Some i.
Proof.
  unfold pd.label_loc. destruct (pd.get_locs on cols) as [|i' [|]] eqn:H; [done| |done].
  intros [= <-]. by apply get_locs_singleton.
Qed.

Lemma label_loc_missing cols on :
  pd.get_loc on cols = None → pd.label_loc cols on = Raise (KeyError on).
Proof. intros H. apply get_locs_nil in H. unfold pd.label_loc. by rewrite H. Qed.

Lemma label_loc_NoDup cols on :
  NoDup cols → pd.label_loc cols on = Raise (KeyError on) ∨ ∃ i, pd.label_loc cols on = Ok i.
Proof.
  intros H. unfold pd.label_loc.
  destruct (get_locs_NoDup on cols H) as [->|[i ->]]; [by left|right; by exists i].
Qed.

(** *** What a merge that succeeds returns *)

Lemma merge_ok A B on m :
  pd.merge A B on = Ok m →
  ∃ i j,
    pd.get_loc on (columns A) = Some i ∧
    pd.get_loc on (columns B) = Some j ∧
    rows m = joined (pd.cell_at i) (pd.cell_at j) (λ l r, l ++ delete j r) (rows A) (rows B) ∧
    columns m = pd.merged_columns (columns A) (columns B) on j.
Proof.
  unfold pd.merge, mbind, outcome_bind.
  destruct (pd.label_loc (columns B) on) as [j|] eqn:Hj; [|done].
  destruct (pd.label_loc (columns A) on) as [i|] eqn:Hi; [|done].
  destruct (pd.maybe_coerce_merge_keys _ _ _); [|done].
  destruct (pd.check_suffixes _); [|done].
  intros [= <-]. exists i, j. by repeat split; try apply label_loc_ok.
Qed.

Lemma merge_rows A B on i j m :
  pd.get_loc on (columns A) = Some i →
  pd.get_loc on (columns B) = Some j →
  pd.merge A B on = Ok m →
  rows m = joined (pd.cell_at i) (pd.cell_at j) (λ l r, l ++ delete j r) (rows A) (rows B) ∧
  columns m = pd.merged_columns (columns A) (columns B) on j.
Proof.
  intros Hi Hj Hm.
  destruct (merge_ok _ _ _ _ Hm) as (i' & j' & Hi' & Hj' & Hrows & Hcols).
  by simplify_eq.
Qed.

(** A sheet without the key column makes the merge raise [KeyError] for
    the key, when the labels of each sheet are distinct. *)
Lemma merge_missing_key A B on :
  NoDup (columns A) →
  NoDup (columns B) →
  on ∉ columns A ∨ on ∉ columns B →
  pd.merge A B on = Raise (KeyError on).
Proof.
  intros HA HB Hkey. unfold pd.merge, mbind, outcome_bind.
  destruct (label_loc_NoDup (columns B) on HB) as [->|[j Hj]]; [done|].
  rewrite Hj. destruct Hkey as [Hkey|Hkey].
  - apply get_loc_absent in Hkey. by rewrite (label_loc_missing _ _ Hkey).
  - apply get_loc_absent in Hkey. apply label_loc_ok in Hj. congruence.
Qed.

Lemma merged_key_column lc rc j i :
  lc !! i = Some "school_id_giga" →
  (pd.strip <$> pd.merged_columns lc rc "school_id_giga" j) !! i = Some "school_id_giga".
Proof.
  intros Hi. unfold pd.merged_columns, pd.llabels.
  rewrite list_lookup_fmap, lookup_app_l
    by (rewrite length_fmap; by apply lookup_lt_Some with "school_id_giga").
  rewrite list_lookup_fmap, Hi. reflexivity.
Qed.

(** The rows of a join are the images of the matching pairs, in order. *)
Lemma joined_matching_pairs {R} i j (h : list cell → list cell → R) A B :
  joined (pd.cell_at i) (pd.cell_at j) h A B =
    (λ p, h p.1 p.2) <$> matching_pairs i j A B.
Proof.
  unfold joined, matching_pairs. induction A as [|a A IH]; [done|].
  rewrite bind_cons. cbn [list_prod]. rewrite filter_app, fmap_app, <- IH.
  f_equal. clear IH. induction B as [|b B IHB]; [done|].
  cbn [map]. rewrite !filter_cons. unfold pd.key_match. simpl.
  destruct (decide (pd.cell_at i a = pd.cell_at j b)) as [Hk|Hk].
  - rewrite decide_True by (by apply bool_decide_pack).
    rewrite !fmap_cons. simpl. by f_equal.
  - rewrite decide_False by (intros H; by apply bool_decide_unpack in H).
    done.
Qed.

(** C3, as the code has it.  For a workbook fetched with status 200 whose
    two sheets parse, both carry the key column [school_id_giga] (each row
    of the first sheet having one cell per label) and merge without error
    -- pandas refuses key columns of incompatible types -- [load_data]
    returns the merged frame with its labels stripped, and in it
    - there is one row per pair of a row of the first sheet and a row of
      the second sheet with the same key: the first row followed by the
      second without its key;
    - when there is a row at all, the key column is where it was in the
      first sheet;
    - every row carries a key that a row of the first sheet and a row of
      the second sheet both carry;
    - when no key occurs twice within a sheet, there are at most
      min(rows of sheet A, rows of sheet B) rows. *)
Theorem load_data_inner_join read_excel w u resp A B i j m :
  network w u = Ok resp →
  status_code resp = 200 →
  read_excel (content resp) "lat long" = Ok A →
  read_excel (content resp) "measurement data" = Ok B →
  pd.wf A →
  pd.get_loc "school_id_giga" (columns A) = Some i →
  pd.get_loc "school_id_giga" (columns B) = Some j →
  pd.merge A B "school_id_giga" = Ok m →
  ∃ df w' d,
    load_data read_excel u w = (Ok df, w') ∧
    frames w' !! df = Some d ∧
    rows d ≡ₚ (λ p, p.1 ++ delete j p.2) <$> matching_pairs i j (rows A) (rows B) ∧
    (rows d ≠ [] → columns d !! i = Some "school_id_giga") ∧
    (∀ row, row ∈ rows d →
       ∃ a b, a ∈ rows A ∧ b ∈ rows B ∧
              pd.cell_at i a = pd.cell_at i row ∧ pd.cell_at j b = pd.cell_at i row) ∧
    (NoDup (pd.cell_at i <$> rows A) →
     NoDup (pd.cell_at j <$> rows B) →
     length (rows d) ≤ length (rows A) `min` length (rows B)).
Proof.
  intros Hnet Hstatus HA HB Hwf Hi Hj Hm.
  destruct (load_data_ok _ _ _ _ _ _ _ Hnet Hstatus HA HB Hm)
    as (df & w' & Hrun & Hdf & _).
  destruct (merge_rows _ _ _ _ _ _ Hi Hj Hm) as [Hrows Hcols].
  eexists df, w', _. split; [done|]. split; [done|]. simpl.
  split; [|split; [|split]].
  - by rewrite Hrows, joined_matching_pairs.
  - intros _. rewrite Hcols. by apply merged_key_column, get_loc_lookup.
  - intros row. rewrite Hrows, elem_of_joined.
    intros (a & b & Ha & Hb & Hkey & ->). exists a, b.
    assert (pd.cell_at i (a ++ delete j b) = pd.cell_at i a) as ->; [|done].
    unfold pd.cell_at. rewrite lookup_app_l; [done|].
    unfold pd.wf in Hwf. rewrite Forall_forall in Hwf. rewrite (Hwf a Ha).
    by apply lookup_lt_Some with "school_id_giga", get_loc_lookup.
  - intros NA NB. rewrite Hrows. apply Nat.min_glb.
    + by apply joined_length_left.
    + by apply joined_length_right.
Qed.

(** C3, as the spec has it, fails: a school with two measurements yields two
    merged rows, more than the single row of the first sheet. *)
Lemma load_data_row_count_counterexample :
  let A := one_school in
  let B := two_measurements in
  let run := load_data (workbook A B) url online in
  pd.wf A ∧ pd.wf B ∧
  Num 1 ∈ pd.cell_at 0 <$> rows A ∧ Num 1 ∈ pd.cell_at 0 <$> rows B ∧
  ∃ df m,
    run.1 = Ok df ∧ frames run.2 !! df = Some m ∧
    length (rows m) = 2 ∧
    ¬ length (rows m) ≤ length (rows A) `min` length (rows B).
Proof.
  simpl. split; [by repeat constructor|]. split; [by repeat constructor|].
  split; [left|]. split; [left|].
  exists 2. eexists. split; [by vm_compute|]. split; [by vm_compute|].
  split; [done|]. simpl. lia.
Qed.

(** ** The Locator with one cluster *)

Section one_cluster.

Context (n_features : nat) (X : list kmeans.point).

Lemma assign_one c : kmeans.assign X [c] = (λ _, 0) <$> X.
Proof. reflexivity. Qed.

Lemma members_one (Y : list kmeans.point) :
  kmeans.members Y ((λ _, 0) <$> Y) 0 = Y.
Proof.
  unfold kmeans.members. induction Y as [|p Y IH]; [done|].
  rewrite fmap_cons. cbn [zip_with]. rewrite filter_cons_True by done.
  rewrite fmap_cons. simpl fst. by f_equal.
Qed.

Lemma update_one c :
  X ≠ [] →
  kmeans.update n_features X ((λ _, 0) <$> X) [c] = [kmeans.centroid n_features X].
Proof.
  intros HX. unfold kmeans.update. simpl. rewrite members_one.
  by destruct X.
Qed.

(** With a single centre, one round of Lloyd's iteration reaches the mean
    of the samples, and further rounds stay there. *)
Lemma lloyd_one max_iter tol c labels_old :
  X ≠ [] →
  kmeans.lloyd (S max_iter) n_features X tol [c] labels_old =
    [kmeans.centroid n_features X].
Proof.
  intros HX. revert c labels_old.
  induction max_iter as [|max_iter IH]; intros c labels_old.
  - change (kmeans.lloyd 1 n_features X tol [c] labels_old) with
      (let labels := kmeans.assign X [c] in
       let centers_new := kmeans.update n_features X labels [c] in
       if decide (Some labels = labels_old) then centers_new
       else if decide (kmeans.center_shift_tot [c] centers_new ≤ tol)%Qc then centers_new
       else centers_new).
    cbv zeta. rewrite assign_one, update_one by done.
    by repeat case_decide.
  - change (kmeans.lloyd (S (S max_iter)) n_features X tol [c] labels_old) with
      (let labels := kmeans.assign X [c] in
       let centers_new := kmeans.update n_features X labels [c] in
       if decide (Some labels = labels_old) then centers_new
       else if decide (kmeans.center_shift_tot [c] centers_new ≤ tol)%Qc then centers_new
       else kmeans.lloyd (S max_iter) n_features X tol centers_new (Some labels)).
    cbv zeta. rewrite assign_one, update_one by done.
    repeat case_decide; done || apply IH.
Qed.

End one_cluster.

Lemma getitem2_length d a b X :
  pd.getitem2 d a b = Ok X → length (rows X) = length (rows d).
Proof.
  unfold pd.getitem2.
  destruct (pd.get_locs a (columns d)), (pd.get_locs b (columns d)); try done.
  intros [= <-]. apply length_fmap.
Qed.

(** A selection [df[[a, b]]] that has two columns took one column for each
    label: no other column of the frame carries [a] or [b]. *)
Lemma getitem2_two d a b X :
  a ≠ b →
  pd.getitem2 d a b = Ok X →
  columns X = [a; b] →
  ∃ i j,
    pd.get_loc a (columns d) = Some i ∧
    pd.get_loc b (columns d) = Some j ∧
    rows X = (λ r, [pd.cell_at i r; pd.cell_at j r]) <$> rows d.
Proof.
  intros Hab. unfold pd.getitem2.
  destruct (pd.get_locs a (columns d)) as [|i ia] eqn:Ha;
    destruct (pd.get_locs b (columns d)) as [|j ib] eqn:Hb; try done.
  intros [= <-]. simpl. intros Hcols.
  destruct ia as [|i' ia]; [|simpl in Hcols; congruence].
  destruct ib as [|j' ib]; [|discriminate Hcols].
  exists i, j. by repeat split; try apply get_locs_singleton.
Qed.

Lemma getitem2_samples d (samples : list (Qc * Qc)) :
  pd.getitem2 d "latitude" "longitude" =
    Ok {| columns := ["latitude"; "longitude"];
          rows := (λ p, [Num p.1; Num p.2]) <$> samples |} →
  length samples = length (rows d) ∧
  pd.getitem d "latitude" = Ok (Num <$> samples.*1) ∧
  pd.getitem d "longitude" = Ok (Num <$> samples.*2).
Proof.
  intros HX. split.
  { apply getitem2_length in HX. simpl in HX. by rewrite length_fmap in HX. }
  assert ("latitude" ≠ "longitude") as Hne by done.
  destruct (getitem2_two _ _ _ _ Hne HX eq_refl) as (i & j & Hi & Hj & Hrows).
  simpl in Hrows. unfold pd.getitem. rewrite Hi, Hj.
  assert (∀ (rs : list (list cell)) (ps : list (Qc * Qc)),
    (λ p, [Num p.1; Num p.2]) <$> ps = (λ r, [pd.cell_at i r; pd.cell_at j r]) <$> rs →
    pd.cell_at i <$> rs = Num <$> ps.*1 ∧ pd.cell_at j <$> rs = Num <$> ps.*2) as Hcols.
  { induction rs as [|r rs IH]; intros [|p ps]; try done.
    rewrite !fmap_cons. intros [= Hx Hy Hrest].
    destruct (IH ps Hrest) as [-> ->]. by rewrite <- Hx, <- Hy. }
  destruct (Hcols _ _ Hrows) as [-> ->]. done.
Qed.

Lemma as_float_array_coords {T} (f g : T → cell) (rs : list T) (xs ys : list Qc) :
  f <$> rs = Num <$> xs →
  g <$> rs = Num <$> ys →
  kmeans.as_float_array ((λ r, [f r; g r]) <$> rs) =
    Ok (zip_with (λ a b, [Some a; Some b]) xs ys).
Proof.
  revert xs ys. induction rs as [|r rs IH]; intros [|x xs] [|y ys]; try done.
  rewrite !fmap_cons. intros [= Hx Hxs] [= Hy Hys].
  cbn [kmeans.as_float_array]. rewrite (IH xs ys Hxs Hys).
  cbn [kmeans.as_float]. by rewrite Hx, Hy.
Qed.

Lemma all_finite_coords (xs ys : list Qc) :
  kmeans.all_finite (zip_with (λ a b, [Some a; Some b]) xs ys) = Some (coords xs ys).
Proof.
  unfold kmeans.all_finite, coords. revert ys.
  induction xs as [|x xs IH]; intros [|y ys]; try done.
  csimpl. by rewrite IH.
Qed.

Lemma length_coords (xs ys : list Qc) :
  length xs = length ys → length (coords xs ys) = length xs.
Proof. intros H. unfold coords. rewrite length_zip_with. lia. Qed.

Lemma coords_fst (xs ys : list Qc) :
  length xs = length ys → (λ p : kmeans.point, p !!! 0) <$> coords xs ys = xs.
Proof.
  unfold coords. revert ys. induction xs as [|x xs IH]; intros [|y ys]; try done.
  intros [= H]. csimpl. by rewrite IH.
Qed.

Lemma coords_snd (xs ys : list Qc) :
  length xs = length ys → (λ p : kmeans.point, p !!! 1) <$> coords xs ys = ys.
Proof.
  unfold coords. revert ys. induction xs as [|x xs IH]; intros [|y ys]; try done.
  intros [= H]. csimpl. by rewrite IH.
Qed.

Lemma centroid_coords (xs ys : list Qc) :
  length xs = length ys →
  kmeans.centroid 2 (coords xs ys) = [pd.average xs; pd.average ys].
Proof.
  intros H. unfold kmeans.centroid. csimpl.
  by rewrite coords_fst, coords_snd.
Qed.

(** What [find_data_center] does with one cluster on a non-empty frame
    whose selection of coordinates is two columns of numbers. *)
Lemma find_data_center_one rng w df d (samples : list (Qc * Qc)) :
  frames w !! df = Some d →
  pd.empty d = false →
  pd.getitem2 d "latitude" "longitude" =
    Ok {| columns := ["latitude"; "longitude"];
          rows := (λ p, [Num p.1; Num p.2]) <$> samples |} →
  ∃ w',
    find_data_center rng df 1 w =
      (Ok (Some [[pd.average samples.*1; pd.average samples.*2]]), w') ∧
    frames w ⊆ frames w' ∧ display w' = display w.
Proof.
  intros Hdf Hne HX.
  destruct (getitem2_samples _ _ HX) as (Hlen & _ & _).
  assert (length samples.*1 = length samples.*2) as Hlens by (by rewrite !length_fmap).
  assert (coords samples.*1 samples.*2 ≠ []) as Hsamples.
  { intros Hnil. apply (f_equal length) in Hnil.
    rewrite length_coords, length_fmap in Hnil by done.
    apply empty_false_rows in Hne. destruct (rows d); [done|].
    simpl in *. lia. }
  unfold find_data_center.
  rewrite (bind_ok _ _ _ _ _ (df_empty_ok _ _ _ Hdf)), Hne.
  unfold df_getitem2, KMeans_fit, check_random_state, new_frame, frame_of, lift,
    mbind, M_bind, mret, M_ret.
  rewrite Hdf, HX. cbn -[kmeans.lloyd kmeans.tolerance init_centroids].
  rewrite lookup_insert_eq.
  unfold kmeans.check_array. cbn -[kmeans.lloyd kmeans.tolerance init_centroids].
  rewrite (as_float_array_coords (λ p : Qc * Qc, Num p.1) (λ p, Num p.2) samples
             samples.*1 samples.*2)
    by (by rewrite <- list_fmap_compose).
  rewrite all_finite_coords.
  destruct (coords samples.*1 samples.*2) as [|p ps] eqn:Hc; [done|].
  cbn -[kmeans.lloyd kmeans.tolerance init_centroids].
  eexists. split; [|split; [apply new_frame_subseteq|done]].
  change (init_centroids rng 0%N 1 (p :: ps))
    with [(p :: ps) !!! (rng 0%N 0 `mod` length (p :: ps))].
  change 300 with (S 299). rewrite lloyd_one by done. rewrite <- Hc.
  rewrite centroid_coords by done. reflexivity.
Qed.

(** *** The mean lies in the convex hull *)

Lemma count_cons (x : Qc) xs : pd.count (x :: xs) = (1 + pd.count xs)%Qc.
Proof.
  unfold pd.count. apply Qc_is_canon. simpl length.
  rewrite Nat2Z.inj_succ. unfold Z.succ. rewrite Z.add_comm.
  cbn [this Qcplus Q2Qc]. rewrite !Qred_correct, inject_Z_plus. reflexivity.
Qed.

Lemma count_nonneg (xs : list Qc) : (0 ≤ pd.count xs)%Qc.
Proof.
  induction xs as [|x xs IH]; [done|]. rewrite count_cons.
  replace 0%Qc with (0 + 0)%Qc by ring. by apply Qcplus_le_compat.
Qed.

Lemma count_pos (xs : list Qc) : xs ≠ [] → (0 < pd.count xs)%Qc.
Proof.
  destruct xs as [|x xs]; [done|]. intros _. rewrite count_cons.
  apply Qclt_le_trans with (1 + 0)%Qc; [done|].
  apply Qcplus_le_compat; [done|apply count_nonneg].
Qed.

Lemma sum_scale (q : Qc) xs : pd.sum ((λ x, q * x)%Qc <$> xs) = (q * pd.sum xs)%Qc.
Proof.
  unfold pd.sum. induction xs as [|x xs IH]; csimpl; [ring|].
  rewrite IH. ring.
Qed.

Lemma sum_replicate (q : Qc) (xs : list Qc) :
  pd.sum (replicate (length xs) q) = (pd.count xs * q)%Qc.
Proof.
  induction xs as [|x xs IH].
  - unfold pd.count, pd.sum. simpl. apply Qc_is_canon. reflexivity.
  - rewrite count_cons. unfold pd.sum in *. simpl. rewrite IH. ring.
Qed.

Lemma average_in_hull (xs ys : list Qc) :
  xs ≠ [] →
  length xs = length ys →
  in_convex_hull [pd.average xs; pd.average ys] (coords xs ys).
Proof.
  intros Hxs Hlen.
  assert (pd.count xs ≠ 0%Qc) as Hn0.
  { intros H0. pose proof (count_pos xs Hxs) as Hpos. rewrite H0 in Hpos.
    by apply Qclt_not_eq in Hpos. }
  assert (pd.count ys = pd.count xs) as Hcount by (unfold pd.count; by rewrite Hlen).
  exists (replicate (length xs) (/ pd.count xs)%Qc). repeat split.
  - by rewrite length_replicate, length_coords.
  - apply Forall_replicate. apply Qclt_le_weak, Qcinv_pos, count_pos, Hxs.
  - rewrite sum_replicate. by field.
  - unfold convex_combination. simpl.
    rewrite !zip_with_replicate_l by (rewrite length_coords; lia).
    assert (∀ f, (λ p : list Qc, (/ pd.count xs * p !!! f)%Qc) <$> coords xs ys =
                 (λ x, (/ pd.count xs * x)%Qc) <$> ((λ p : list Qc, p !!! f) <$> coords xs ys))
      as Hcomp by (intros f; by rewrite <- list_fmap_compose).
    rewrite !Hcomp, coords_fst, coords_snd, !sum_scale by done.
    unfold pd.average. rewrite Hcount.
    f_equal; [|f_equal]; by field.
Qed.

(** C1.  On a non-empty Dataset whose selection of the latitude and
    longitude columns -- the selection the code makes -- is two columns of
    numbers, [find_data_center] with one cluster returns exactly one centre,
    whatever the generator of the initial centres draws: its coordinates
    are the arithmetic means of the latitudes and of the longitudes over
    all records, and it is a convex combination of the records'
    coordinates. *)
Theorem find_data_center_single_cluster rng w df d (samples : list (Qc * Qc)) :
  frames w !! df = Some d →
  pd.empty d = false →
  pd.getitem2 d "latitude" "longitude" =
    Ok {| columns := ["latitude"; "longitude"];
          rows := (λ p, [Num p.1; Num p.2]) <$> samples |} →
  let lats := samples.*1 in
  let lons := samples.*2 in
  let centre := [(pd.sum lats / pd.count lats)%Qc; (pd.sum lons / pd.count lons)%Qc] in
  length samples = length (rows d) ∧
  (∃ w', find_data_center rng df 1 w = (Ok (Some [centre]), w')) ∧
  in_convex_hull centre (coords lats lons).
Proof.
  intros Hdf Hne HX. cbv zeta.
  destruct (getitem2_samples _ _ HX) as (Hlen & Hlat & _).
  split; [done|]. split.
  - destruct (find_data_center_one rng _ _ _ _ Hdf Hne HX) as (w' & Hrun & _).
    by exists w'.
  - apply average_in_hull; [|by rewrite !length_fmap].
    by apply numeric_column_nonempty with d "latitude".
Qed.

Lemma find_data_center_single_cluster_witness :
  let samples := [(frac 131 10, frac (-596) 10); (frac 133 10, frac (-594) 10)] in
  let lats := samples.*1 in
  let lons := samples.*2 in
  let centre := [(pd.sum lats / pd.count lats)%Qc; (pd.sum lons / pd.count lons)%Qc] in
  length samples = length (rows survey) ∧
  (∃ w', find_data_center (λ _ i, i) 0 1 surveyed = (Ok (Some [centre]), w')) ∧
  in_convex_hull centre (coords lats lons).
Proof.
  apply (find_data_center_single_cluster (λ _ i, i) surveyed 0 survey
           [(frac 131 10, frac (-596) 10); (frac 133 10, frac (-594) 10)]);
    reflexivity.
Defined.


(** The end-to-end figures of the spec: one school at (13.1, -59.6) with
    download 10, upload 2 and latency 50 gives the centre (13.1, -59.6),
    "before" (50, 10, 2) and "after" (40, 12, 2.4). *)
Example single_school_centre :
  (find_data_center (λ _ i, i) 0 1 single_world).1 =
    Ok (Some [[frac 131 10; frac (-596) 10]]).
Proof.
  destruct (find_data_center_one (λ _ i, i) single_world 0 single
              [(frac 131 10, frac (-596) 10)]) as (w' & -> & _); try reflexivity.
  simpl. repeat f_equal; by apply Qc_is_canon.
Qed.

Example single_school_impact :
  (calculate_impact 0 None single_world).1 =
    Ok (Some (Num (frac 40 1), Num (frac 12 1), Num (frac 24 10),
              Num (frac 50 1), Num (frac 10 1), Num (frac 2 1))).
Proof.
  eapply (bool_decide_unpack _ (dec := decide_rel (=@{outcome (option (cell * cell * cell * cell * cell * cell))}) _ _)).
  by vm_compute.
Qed.

(** ** Malformed coordinates *)

(** Whatever [check_array] refuses, [find_data_center] lets through to its
    caller: only the empty frame is guarded. *)
Lemma find_data_center_check_array rng w df d X e n_clusters :
  frames w !! df = Some d →
  pd.empty d = false →
  pd.getitem2 d "latitude" "longitude" = Ok X →
  kmeans.check_array X = Raise e →
  n_clusters ≠ 0 →
  ∃ w', find_data_center rng df n_clusters w = (Raise e, w').
Proof.
  intros Hdf Hne HX Hcheck Hn. unfold find_data_center.
  rewrite (bind_ok _ _ _ _ _ (df_empty_ok _ _ _ Hdf)), Hne.
  unfold df_getitem2, KMeans_fit, new_frame, frame_of, lift, mbind, M_bind, mret, M_ret.
  rewrite Hdf, HX. destruct n_clusters as [|n]; [done|].
  cbn -[kmeans.check_array]. rewrite lookup_insert_eq, Hcheck. by eexists.
Qed.

(** C9.  There is a non-empty Dataset with a latitude that is not a number
    on which [find_data_center] raises: the [ValueError] of the conversion
    leaves the function, it is not turned into [None], and nothing is
    written to the page. *)
Theorem find_data_center_malformed_raises rng :
  ∃ w df d,
    frames w !! df = Some d ∧
    pd.empty d = false ∧
    pd.getitem d "latitude" = Ok [Str "13.1 N"] ∧
    ∃ w', find_data_center rng df 1 w =
            (Raise (ValueError "could not convert string to float: 13.1 N"), w') ∧
          display w' = display w.
Proof.
  exists garbled_world, 0, garbled. repeat split.
  eexists. split; reflexivity.
Qed.

(** ** What a stage may depend on, and what it may touch *)

Lemma extends_refl w : extends w w [] ∅.
Proof.
  unfold extends. rewrite app_nil_r, (left_id_L ∅ (∪)). done.
Qed.

Lemma extends_say w line : extends w (say line w) [Text line] ∅.
Proof. unfold extends. simpl. by rewrite (left_id_L ∅ (∪)). Qed.

Lemma extends_new_frame w d : extends w (new_frame d w).2 [] ∅.
Proof.
  unfold extends. simpl. rewrite app_nil_r, (left_id_L ∅ (∪)).
  repeat split. apply insert_subseteq, fresh_frame.
Qed.

Lemma extends_trans w w1 w2 out1 out2 written1 written2 :
  extends w w1 out1 written1 →
  extends w1 w2 out2 written2 →
  extends w w2 (out1 ++ out2) (written2 ∪ written1).
Proof.
  intros (Hd1 & Hf1 & Hn1 & Hr1 & Hs1) (Hd2 & Hf2 & Hn2 & Hr2 & Hs2).
  unfold extends. rewrite Hd2, Hd1, Hf2, Hf1, Hn2, Hn1, Hr2, Hr1.
  rewrite app_assoc, (assoc_L (∪)). repeat split. by etrans.
Qed.

Lemma extends_frame w w' out written df d :
  extends w w' out written → frames w !! df = Some d → frames w' !! df = Some d.
Proof. intros (_ & _ & _ & _ & Hsub) Hdf. by apply (lookup_weaken _ _ _ _ Hdf). Qed.

Ltac run :=
  unfold find_data_center, plot_map, calculate_impact, display_3d_bar_chart,
    df_empty, df_getitem2, df_mean, df_columns, KMeans_fit, check_random_state,
    new_frame, frame_of, lift, raise, st.write, st.html, st.plotly_chart, save,
    open_read, mbind, M_bind, mret, M_ret.

Lemma find_data_center_determined rng d n_clusters :
  determined d (λ df, find_data_center rng df n_clusters).
Proof.
  unfold determined. destruct (pd.empty d) eqn:He.
  { exists (Ok None), [Text "Dataframe is empty, skipping clustering"], ∅.
    intros w df Hdf. eexists. split; [run; by rewrite Hdf, He|].
    apply extends_say. }
  destruct (pd.getitem2 d "latitude" "longitude") as [X|e] eqn:HX.
  2:{ exists (Raise e), [], ∅. intros w df Hdf. exists w. split; [|apply extends_refl].
      run. by rewrite Hdf, He, Hdf, HX. }
  destruct n_clusters as [|n].
  { eexists (Raise _), [], ∅. intros w df Hdf. eexists. split.
    - run. rewrite Hdf. cbn. rewrite He, Hdf, HX. reflexivity.
    - apply (extends_new_frame w X). }
  destruct (kmeans.check_array X) as [samples|e] eqn:Hcheck.
  2:{ exists (Raise e), [], ∅. intros w df Hdf. eexists. split.
      - run. rewrite Hdf. cbn -[kmeans.check_array]. rewrite He, Hdf, HX.
        cbn -[kmeans.check_array]. rewrite lookup_insert_eq, Hcheck. reflexivity.
      - apply (extends_new_frame w X). }
  destruct (length samples <? S n)%nat eqn:Hlen.
  { eexists (Raise _), [], ∅. intros w df Hdf. eexists. split.
    - run. rewrite Hdf. cbn -[kmeans.check_array Nat.ltb]. rewrite He, Hdf, HX.
      cbn -[kmeans.check_array Nat.ltb]. rewrite lookup_insert_eq, Hcheck, Hlen.
      reflexivity.
    - apply (extends_new_frame w X). }
  eexists (Ok _), [], ∅. intros w df Hdf. eexists. split.
  - run. rewrite Hdf.
    cbn -[kmeans.check_array Nat.ltb kmeans.lloyd kmeans.tolerance init_centroids].
    rewrite He, Hdf, HX.
    cbn -[kmeans.check_array Nat.ltb kmeans.lloyd kmeans.tolerance init_centroids].
    rewrite lookup_insert_eq, Hcheck, Hlen. reflexivity.
  - apply (extends_new_frame w X).
Qed.

Lemma extends_save w doc path : extends w (save doc path w).2 [] {[ path := doc ]}.
Proof.
  unfold extends. simpl. rewrite app_nil_r, insert_union_singleton_l. done.
Qed.

(** The Presenter of the map; when it returns a path, the map was saved
    there. *)
Lemma plot_map_determined d center :
  ∃ (r : outcome (option string)) out written,
    (∀ path, r = Ok (Some path) → path ≠ EmptyString ∧ is_Some (written !! path)) ∧
    (pd.empty d = true → r = Ok None ∧ written = ∅) ∧
    ∀ w df, frames w !! df = Some d →
      ∃ w', plot_map df center w = (r, w') ∧ extends w w' out written.
Proof.
  destruct (pd.empty d) eqn:He.
  { exists (Ok None), [Text "Dataframe is empty, skipping map plotting"], ∅.
    split; [done|]. split; [done|].
    intros w df Hdf. eexists. split; [|apply extends_say].
    run. by rewrite Hdf, He. }
  destruct (item2 center 0 0) as [lat|e] eqn:Hlat.
  2:{ exists (Raise e), [], ∅. split; [done|]. split; [done|].
      intros w df Hdf. exists w. split; [|apply extends_refl].
      run. by rewrite Hdf, He, Hlat. }
  destruct (item2 center 0 1) as [lon|e] eqn:Hlon.
  2:{ exists (Raise e), [], ∅. split; [done|]. split; [done|].
      intros w df Hdf. exists w. split; [|apply extends_refl].
      run. by rewrite Hdf, He, Hlat, Hlon. }
  destruct (school_markers (columns d) (rows d)) as [schools|e] eqn:Hschools.
  2:{ exists (Raise e), [], ∅. split; [done|]. split; [done|].
      intros w df Hdf. exists w. split; [|apply extends_refl].
      run. by rewrite Hdf, He, Hlat, Hlon, Hdf, Hschools. }
  eexists (Ok (Some "map.html")), [], {[ "map.html" := _ ]}.
  split; [|split; [done|]].
  { intros path [= <-]. split; [done|]. rewrite lookup_singleton_eq. by eexists. }
  intros w df Hdf. eexists. split.
  - run. rewrite Hdf, He, Hlat, Hlon, Hdf, Hschools. reflexivity.
  - apply extends_save.
Qed.

Lemma calculate_impact_determined d center :
  determined d (λ df, calculate_impact df center).
Proof.
  unfold determined. destruct (pd.empty d) eqn:He.
  { exists (Ok None), [Text "Dataframe is empty, skipping impact calculation"], ∅.
    intros w df Hdf. eexists. split; [|apply extends_say].
    run. by rewrite Hdf, He. }
  destruct (pd.getitem d "latency" ≫= pd.mean) as [l|e] eqn:Hl.
  2:{ exists (Raise e), [], ∅. intros w df Hdf. exists w. split; [|apply extends_refl].
      run. unfold mbind in *. by rewrite Hdf, He, Hdf, Hl. }
  destruct (pd.getitem d "download_speed" ≫= pd.mean) as [dl|e] eqn:Hd.
  2:{ exists (Raise e), [], ∅. intros w df Hdf. exists w. split; [|apply extends_refl].
      run. unfold mbind in *. by rewrite Hdf, He, Hdf, Hl, Hdf, Hd. }
  destruct (pd.getitem d "upload_speed" ≫= pd.mean) as [ul|e] eqn:Hu.
  2:{ exists (Raise e), [], ∅. intros w df Hdf. exists w. split; [|apply extends_refl].
      run. unfold mbind in *. by rewrite Hdf, He, Hdf, Hl, Hdf, Hd, Hdf, Hu. }
  destruct (mul l (frac 8 10)) as [l'|e] eqn:Hl'.
  2:{ exists (Raise e), [], ∅. intros w df Hdf. exists w. split; [|apply extends_refl].
      run. unfold mbind in *. by rewrite Hdf, He, Hdf, Hl, Hdf, Hd, Hdf, Hu, Hl'. }
  destruct (mul dl (frac 12 10)) as [dl'|e] eqn:Hd'.
  2:{ exists (Raise e), [], ∅. intros w df Hdf. exists w. split; [|apply extends_refl].
      run. unfold mbind in *. by rewrite Hdf, He, Hdf, Hl, Hdf, Hd, Hdf, Hu, Hl', Hd'. }
  destruct (mul ul (frac 12 10)) as [ul'|e] eqn:Hu'.
  2:{ exists (Raise e), [], ∅. intros w df Hdf. exists w. split; [|apply extends_refl].
      run. unfold mbind in *. by rewrite Hdf, He, Hdf, Hl, Hdf, Hd, Hdf, Hu, Hl', Hd', Hu'. }
  eexists (Ok (Some _)), [], ∅. intros w df Hdf. exists w. split; [|apply extends_refl].
  run. unfold mbind in *. rewrite Hdf, He, Hdf, Hl, Hdf, Hd, Hdf, Hu, Hl', Hd', Hu'. reflexivity.
Qed.

(** ** The stages leave their input alone *)

(** C10.  [find_data_center], [calculate_impact] and [plot_map] leave the
    Dataset they are given as it was -- same labels, same rows, same cells --
    whether they return or raise; so do they every other frame of the
    world. *)
Theorem stages_leave_dataset rng w df d n_clusters center :
  frames w !! df = Some d →
  (frames (find_data_center rng df n_clusters w).2 !! df = Some d ∧
   frames w ⊆ frames (find_data_center rng df n_clusters w).2) ∧
  (frames (calculate_impact df center w).2 !! df = Some d ∧
   frames w ⊆ frames (calculate_impact df center w).2) ∧
  (frames (plot_map df center w).2 !! df = Some d ∧
   frames w ⊆ frames (plot_map df center w).2).
Proof.
  intros Hdf. repeat split.
  - destruct (find_data_center_determined rng d n_clusters) as (r & out & wr & H).
    destruct (H w df Hdf) as (w' & -> & Hext). by eapply extends_frame.
  - destruct (find_data_center_determined rng d n_clusters) as (r & out & wr & H).
    destruct (H w df Hdf) as (w' & -> & Hext). apply Hext.
  - destruct (calculate_impact_determined d center) as (r & out & wr & H).
    destruct (H w df Hdf) as (w' & -> & Hext). by eapply extends_frame.
  - destruct (calculate_impact_determined d center) as (r & out & wr & H).
    destruct (H w df Hdf) as (w' & -> & Hext). apply Hext.
  - destruct (plot_map_determined d center) as (r & out & wr & _ & _ & H).
    destruct (H w df Hdf) as (w' & -> & Hext). by eapply extends_frame.
  - destruct (plot_map_determined d center) as (r & out & wr & _ & _ & H).
    destruct (H w df Hdf) as (w' & -> & Hext). apply Hext.
Qed.

Lemma stages_leave_dataset_witness :
  let center := Some [[frac 132 10; frac (-595) 10]] in
  (frames (find_data_center (λ _ i, i) 0 1 surveyed).2 !! 0 = Some survey ∧
   frames surveyed ⊆ frames (find_data_center (λ _ i, i) 0 1 surveyed).2) ∧
  (frames (calculate_impact 0 center surveyed).2 !! 0 = Some survey ∧
   frames surveyed ⊆ frames (calculate_impact 0 center surveyed).2) ∧
  (frames (plot_map 0 center surveyed).2 !! 0 = Some survey ∧
   frames surveyed ⊆ frames (plot_map 0 center surveyed).2).
Proof.
  apply (stages_leave_dataset (λ _ i, i) surveyed 0 survey 1
           (Some [[frac 132 10; frac (-595) 10]])).
  reflexivity.
Defined.

(** By contrast [load_data] does change a frame in place -- the merged one,
    which it has just made: in the world of [online], stripping the labels
    rewrites the frame at location 2. *)
Example load_data_strips_in_place :
  let A := {| columns := ["school_id_giga"; " latitude"; "longitude "];
              rows := rows one_school |} in
  columns <$> frames (load_data (workbook A two_measurements) url online).2 !! 2 =
    Some ["school_id_giga"; "latitude"; "longitude";
          "download_speed"; "upload_speed"; "latency"].
Proof. by vm_compute. Qed.

(** ** The Loader never raises *)

Lemma insert_fresh_subseteq (h : gmap loc DataFrame) d : h ⊆ <[fresh (dom h):=d]> h.
Proof. apply insert_subseteq, not_elem_of_dom, is_fresh. Qed.

Lemma load_data_runs read_excel u w :
  ∃ df w',
    load_data read_excel u w = (Ok df, w') ∧
    frames w' !! df = Some (loaded read_excel u (network w u)).1 ∧
    extends w w' (loaded read_excel u (network w u)).2 ∅.
Proof.
  unfold loaded, sheets.
  destruct (network w u) as [resp|e] eqn:Hnet.
  2:{ eexists _, _. split.
      { unfold load_data, try_except, requests.get, new_frame, st.write, mbind, M_bind.
        simpl. rewrite Hnet. reflexivity. }
      simpl. rewrite lookup_insert_eq. split; [done|].
      unfold extends. simpl. rewrite <- app_assoc, (left_id_L ∅ (∪)).
      repeat split. apply insert_fresh_subseteq. }
  destruct (decide (status_code resp = 200)) as [Hstatus|Hstatus].
  2:{ eexists _, _. split.
      { unfold load_data, try_except, requests.get, new_frame, st.write, mbind, M_bind.
        simpl. rewrite Hnet. rewrite decide_False by done. reflexivity. }
      simpl. rewrite lookup_insert_eq. split; [done|].
      unfold extends. simpl. rewrite <- app_assoc, (left_id_L ∅ (∪)).
      repeat split. apply insert_fresh_subseteq. }
  destruct (read_excel (content resp) "lat long") as [A|e] eqn:HA.
  2:{ eexists _, _. split.
      { unfold load_data, try_except, pd_read_excel, requests.get, new_frame, lift,
          st.write, mbind, M_bind.
        simpl. rewrite Hnet. rewrite decide_True by done. rewrite HA. reflexivity. }
      simpl. rewrite lookup_insert_eq. split; [done|].
      unfold extends. simpl. rewrite <- app_assoc, (left_id_L ∅ (∪)).
      repeat split. apply insert_fresh_subseteq. }
  destruct (read_excel (content resp) "measurement data") as [B|e] eqn:HB.
  2:{ eexists _, _. split.
      { unfold load_data, try_except, pd_read_excel, requests.get, new_frame, lift,
          st.write, mbind, M_bind, mret, M_ret.
        simpl. rewrite Hnet. rewrite decide_True by done. rewrite HA, HB. reflexivity. }
      simpl. rewrite lookup_insert_eq. split; [done|].
      unfold extends. simpl. rewrite <- app_assoc, (left_id_L ∅ (∪)).
      repeat split.
      etrans; [|apply insert_fresh_subseteq]. apply insert_fresh_subseteq. }
  unfold mbind, outcome_bind.
  destruct (pd.merge A B "school_id_giga") as [m|e] eqn:Hm.
  { destruct (load_data_ok _ _ _ _ _ _ _ Hnet Hstatus HA HB Hm)
      as (df & w' & Hrun & Hdf & Hsub & Hout & Hn & Hf & Hr).
    exists df, w'. split; [done|]. split; [done|].
    unfold extends. simpl. by rewrite Hf, (left_id_L ∅ (∪)). }
  eexists _, _. split.
  { unfold load_data, try_except, pd_read_excel, pd_merge, frame_of, requests.get,
      new_frame, lift, st.write, mbind, M_bind, mret, M_ret.
    simpl. rewrite Hnet. rewrite decide_True by done. rewrite HA, HB. simpl.
    rewrite lookup_insert_ne by apply fresh_insert_ne.
    rewrite lookup_insert_eq. simpl. rewrite lookup_insert_eq, Hm. reflexivity. }
  simpl. rewrite lookup_insert_eq. split; [done|].
  unfold extends. simpl. rewrite <- app_assoc, (left_id_L ∅ (∪)).
  repeat split.
  etrans; [|apply insert_fresh_subseteq].
  etrans; [|apply insert_fresh_subseteq]. apply insert_fresh_subseteq.
Qed.

(** C4.  [load_data] never raises: in every world, for every URL and every
    parser, it returns a frame, and that frame is the empty [pd.DataFrame()]
    when the request raises, when the status is not 200, when either sheet
    fails to parse, and when the merge raises (a sheet without the key
    column, key columns of incompatible types); it is the merged frame,
    labels stripped, when all of that succeeds. *)
Theorem load_data_never_raises read_excel u w :
  ∃ df w' d,
    load_data read_excel u w = (Ok df, w') ∧
    frames w' !! df = Some d ∧
    pd.empty pd.DataFrame = true ∧
    (∀ e, network w u = Raise e → d = pd.DataFrame) ∧
    (∀ resp, network w u = Ok resp → status_code resp ≠ 200 → d = pd.DataFrame) ∧
    (∀ resp e, network w u = Ok resp →
       read_excel (content resp) "lat long" = Raise e → d = pd.DataFrame) ∧
    (∀ resp e, network w u = Ok resp →
       read_excel (content resp) "measurement data" = Raise e → d = pd.DataFrame) ∧
    (∀ resp A B e, network w u = Ok resp →
       read_excel (content resp) "lat long" = Ok A →
       read_excel (content resp) "measurement data" = Ok B →
       pd.merge A B "school_id_giga" = Raise e → d = pd.DataFrame) ∧
    (∀ resp A B m, network w u = Ok resp →
       status_code resp = 200 →
       read_excel (content resp) "lat long" = Ok A →
       read_excel (content resp) "measurement data" = Ok B →
       pd.merge A B "school_id_giga" = Ok m →
       d = {| columns := pd.strip <$> columns m; rows := rows m |}).
Proof.
  destruct (load_data_runs read_excel u w) as (df & w' & Hrun & Hdf & _).
  exists df, w', (loaded read_excel u (network w u)).1.
  split; [done|]. split; [done|]. split; [done|].
  unfold loaded, sheets, mbind, outcome_bind. repeat split.
  - by intros e ->.
  - intros resp -> Hstatus. by rewrite decide_False.
  - intros resp e -> ->. by case_decide.
  - intros resp e -> ->. case_decide; [|done].
    by destruct (read_excel (content resp) "lat long").
  - intros resp A B e -> -> -> ->. by case_decide.
  - intros resp A B m -> Hstatus -> -> ->. by rewrite decide_True.
Qed.

(** ** Empty-Abort *)

(** C5.  When the Loader's Dataset is empty, [main] writes that there is
    nothing to process and returns normally: nothing is clustered, no map
    is saved, no chart is drawn.  And each later stage, given that Dataset,
    returns its sentinel and only reports that it skips: [find_data_center],
    [plot_map] and [calculate_impact] return [None], and
    [display_3d_bar_chart], given [None], draws nothing. *)
Theorem main_empty_abort read_excel rng w df w1 d :
  load_data read_excel url w = (Ok df, w1) →
  frames w1 !! df = Some d →
  pd.empty d = true →
  main read_excel rng w = (Ok (), say "No data to process, exiting application." w1) ∧
  files (main read_excel rng w).2 = files w ∧
  (∀ n_clusters, find_data_center rng df n_clusters w1 =
     (Ok None, say "Dataframe is empty, skipping clustering" w1)) ∧
  (∀ center, plot_map df center w1 =
     (Ok None, say "Dataframe is empty, skipping map plotting" w1)) ∧
  (∀ center, calculate_impact df center w1 =
     (Ok None, say "Dataframe is empty, skipping impact calculation" w1)) ∧
  (∀ a b a' b' c' w2, display_3d_bar_chart None a b a' b' c' w2 =
     (Ok (), say "No data to display in the chart." w2)).
Proof.
  intros Hload Hdf He.
  assert (main read_excel rng w =
          (Ok (), say "No data to process, exiting application." w1)) as Hmain.
  { unfold main. rewrite (bind_ok _ _ _ _ _ Hload).
    by rewrite (bind_ok _ _ _ _ _ (df_empty_ok _ _ _ Hdf)), He. }
  split; [done|]. split.
  { rewrite Hmain. simpl.
    destruct (load_data_runs read_excel url w) as (df' & w1' & Hrun & _ & Hext).
    rewrite Hload in Hrun. injection Hrun as <- <-.
    destruct Hext as (_ & -> & _). by rewrite (left_id_L ∅ (∪)). }
  repeat split.
  - intros n. run. by rewrite Hdf, He.
  - intros center. run. by rewrite Hdf, He.
  - intros center. run. by rewrite Hdf, He.
Qed.

Lemma main_empty_abort_witness :
  let read_excel := workbook one_school other_measurements in
  let rng := λ (_ : N) (i : nat), i in
  let w1 := (load_data read_excel url online).2 in
  main read_excel rng online =
    (Ok (), say "No data to process, exiting application." w1) ∧
  files (main read_excel rng online).2 = files online ∧
  (∀ n_clusters, find_data_center rng 2 n_clusters w1 =
     (Ok None, say "Dataframe is empty, skipping clustering" w1)) ∧
  (∀ center, plot_map 2 center w1 =
     (Ok None, say "Dataframe is empty, skipping map plotting" w1)) ∧
  (∀ center, calculate_impact 2 center w1 =
     (Ok None, say "Dataframe is empty, skipping impact calculation" w1)) ∧
  (∀ a b a' b' c' w2, display_3d_bar_chart None a b a' b' c' w2 =
     (Ok (), say "No data to display in the chart." w2)).
Proof.
  apply (main_empty_abort (workbook one_school other_measurements) (λ _ i, i)
           online 2 _ no_match); by vm_compute.
Defined.

Lemma load_data_inner_join_witness :
  let A := one_school in
  let B := two_measurements in
  ∃ df w' d,
    load_data (workbook A B) url online = (Ok df, w') ∧
    frames w' !! df = Some d ∧
    rows d ≡ₚ (λ p, p.1 ++ delete 0 p.2) <$> matching_pairs 0 0 (rows A) (rows B) ∧
    (rows d ≠ [] → columns d !! 0 = Some "school_id_giga") ∧
    (∀ row, row ∈ rows d →
       ∃ a b, a ∈ rows A ∧ b ∈ rows B ∧
              pd.cell_at 0 a = pd.cell_at 0 row ∧ pd.cell_at 0 b = pd.cell_at 0 row) ∧
    (NoDup (pd.cell_at 0 <$> rows A) →
     NoDup (pd.cell_at 0 <$> rows B) →
     length (rows d) ≤ length (rows A) `min` length (rows B)).
Proof.
  apply (load_data_inner_join (workbook one_school two_measurements) online url
           {| status_code := 200; content := "PK" |} one_school two_measurements 0 0
           {| columns := ["school_id_giga"; "latitude"; "longitude";
                          "download_speed"; "upload_speed"; "latency"];
              rows := [[Num 1; Num (frac 131 10); Num (frac (-596) 10);
                        Num (frac 10 1); Num (frac 2 1); Num (frac 50 1)];
                       [Num 1; Num (frac 131 10); Num (frac (-596) 10);
                        Num (frac 12 1); Num (frac 3 1); Num (frac 40 1)]] |});
    try reflexivity.
  repeat constructor.
Defined.

(** ** The pipeline is a function of the fetched bytes *)

Lemma determined_bind {A B} d (m : loc → M A) (f : A → loc → M B) :
  determined d m →
  (∀ a, determined d (f a)) →
  determined d (λ df, a ← m df; f a df).
Proof.
  intros (r & out & wr & Hm) Hf. destruct r as [a|e].
  - destruct (Hf a) as (r2 & out2 & wr2 & Hf2).
    exists r2, (out ++ out2), (wr2 ∪ wr). intros w df Hdf.
    destruct (Hm w df Hdf) as (w1 & Hrun & Hext).
    destruct (Hf2 w1 df (extends_frame _ _ _ _ _ _ Hext Hdf)) as (w2 & Hrun2 & Hext2).
    exists w2. split; [by rewrite (bind_ok _ _ _ _ _ Hrun)|by eapply extends_trans].
  - exists (Raise e), out, wr. intros w df Hdf.
    destruct (Hm w df Hdf) as (w1 & Hrun & Hext).
    exists w1. split; [by rewrite (bind_raise _ _ _ _ _ Hrun)|done].
Qed.

Lemma determined_df_empty d : determined d df_empty.
Proof.
  exists (Ok (pd.empty d)), [], ∅. intros w df Hdf. exists w.
  split; [by apply df_empty_ok|apply extends_refl].
Qed.

Lemma determined_write {d} line : determined d (λ _, st.write line).
Proof.
  exists (Ok ()), [Text line], ∅. intros w df _. eexists.
  split; [reflexivity|apply extends_say].
Qed.

Lemma determined_raise {A d} e : determined (A:=A) d (λ _, raise e).
Proof.
  exists (Raise e), [], ∅. intros w df _. exists w.
  split; [reflexivity|apply extends_refl].
Qed.

Lemma determined_chart {d} a b c a' b' c' :
  determined d (λ _, display_3d_bar_chart a b c a' b' c').
Proof.
  destruct a as [x|].
  - eexists (Ok ()), [PlotlyChart _], ∅. intros w df _. eexists.
    split; [reflexivity|]. unfold extends. simpl. by rewrite (left_id_L ∅ (∪)).
  - apply (determined_write "No data to display in the chart.").
Qed.

(** Saving the map and embedding what was saved. *)
Lemma determined_map d center :
  determined d (λ df,
    map_file ← plot_map df center;
    match map_file with
    | Some path =>
        if decide (path = EmptyString) then mret ()
        else doc ← open_read path; st.html doc 600
    | None => mret ()
    end).
Proof.
  destruct (plot_map_determined d center) as (r & out & wr & Hpath & _ & H).
  destruct r as [[path|]|e].
  - destruct (Hpath path eq_refl) as [Hne [doc Hdoc]].
    exists (Ok ()), (out ++ [Html doc 600]), wr. intros w df Hdf.
    destruct (H w df Hdf) as (w1 & Hrun & Hext).
    rewrite (bind_ok _ _ _ _ _ Hrun). rewrite decide_False by done.
    assert (files w1 !! path = Some doc) as Hfile.
    { destruct Hext as (_ & -> & _). by apply lookup_union_Some_l. }
    run. rewrite Hfile. eexists. split; [reflexivity|].
    destruct Hext as (Hd & Hf & Hn & Hr & Hs). unfold extends. simpl.
    by rewrite Hd, app_assoc.
  - exists (Ok ()), out, wr. intros w df Hdf.
    destruct (H w df Hdf) as (w1 & Hrun & Hext). exists w1.
    by rewrite (bind_ok _ _ _ _ _ Hrun).
  - exists (Raise e), out, wr. intros w df Hdf.
    destruct (H w df Hdf) as (w1 & Hrun & Hext). exists w1.
    by rewrite (bind_raise _ _ _ _ _ Hrun).
Qed.

Lemma bind_ext {A B} (m : M A) (f g : A → M B) w :
  (∀ a w', f a w' = g a w') → (m ≫= f) w = (m ≫= g) w.
Proof. intros H. unfold mbind, M_bind. by destruct (m w) as [[a|e] w']. Qed.

Lemma bind_assoc {A B C} (m : M A) (f : A → M B) (g : B → M C) w :
  ((m ≫= f) ≫= g) w = (m ≫= λ a, f a ≫= g) w.
Proof. unfold mbind, M_bind. by destruct (m w) as [[a|e] w']. Qed.

Lemma main_after_load read_excel rng w :
  main read_excel rng w = (df ← load_data read_excel url; after_load rng df) w.
Proof.
  unfold main, after_load.
  apply bind_ext. intros df w1. apply bind_ext. intros [|] w2; [done|].
  apply bind_ext. intros [c|] w3; [|done].
  symmetry. apply bind_assoc.
Qed.

Lemma after_load_determined rng d : determined d (after_load rng).
Proof.
  unfold after_load.
  apply (determined_bind d df_empty); [apply determined_df_empty|].
  intros [|]; [apply determined_write|].
  apply (determined_bind d (λ df, find_data_center rng df 1));
    [apply find_data_center_determined|].
  intros [c|]; [|apply determined_write].
  apply (determined_bind d _ (λ _ df, _)); [apply determined_map|]. intros _.
  apply (determined_bind d (λ df, calculate_impact df (Some c)));
    [apply calculate_impact_determined|].
  intros [[[[[[l dl] ul] l'] dl'] ul']|]; [apply determined_chart|apply determined_raise].
Qed.

Lemma main_determined read_excel rng answer :
  ∃ r out, ∀ w, network w url = answer →
    ∃ w', main read_excel rng w = (r, w') ∧
          display w' = display w ++ out ∧ np_random w' = np_random w.
Proof.
  destruct (after_load_determined rng (loaded read_excel url answer).1)
    as (r & out & wr & H).
  exists r, ((loaded read_excel url answer).2 ++ out). intros w Hnet.
  destruct (load_data_runs read_excel url w) as (df & w1 & Hload & Hdf & Hext1).
  rewrite Hnet in Hdf, Hext1.
  destruct (H w1 df Hdf) as (w2 & Hrun & Hext2).
  exists w2. rewrite main_after_load, (bind_ok _ _ _ _ _ Hload).
  split; [done|].
  destruct (extends_trans _ _ _ _ _ _ _ Hext1 Hext2) as (Hd & _ & _ & Hr & _).
  done.
Qed.

(** C7.  Two runs whose request for the workbook is answered alike -- the
    same bytes with the same status, or the same failure -- produce the
    same Dataset, the same centre and the same ImpactSummary, end alike and
    put the same widgets on the page, whatever else differs between the two
    worlds: the frames already on the heap, the page so far, the files and
    the state of numpy's global generator, which [KMeans(random_state=0)]
    neither reads nor advances. *)
Theorem pipeline_deterministic read_excel rng w1 w2 :
  network w1 url = network w2 url →
  ∃ df1 w1' df2 w2' d,
    load_data read_excel url w1 = (Ok df1, w1') ∧
    load_data read_excel url w2 = (Ok df2, w2') ∧
    frames w1' !! df1 = Some d ∧
    frames w2' !! df2 = Some d ∧
    (find_data_center rng df1 1 w1').1 = (find_data_center rng df2 1 w2').1 ∧
    (∀ center, (calculate_impact df1 center w1').1 = (calculate_impact df2 center w2').1) ∧
    ∃ r out,
      (main read_excel rng w1).1 = r ∧
      (main read_excel rng w2).1 = r ∧
      display (main read_excel rng w1).2 = display w1 ++ out ∧
      display (main read_excel rng w2).2 = display w2 ++ out ∧
      np_random (main read_excel rng w1).2 = np_random w1 ∧
      np_random (main read_excel rng w2).2 = np_random w2.
Proof.
  intros Hnet.
  destruct (load_data_runs read_excel url w1) as (df1 & w1' & Hload1 & Hdf1 & _).
  destruct (load_data_runs read_excel url w2) as (df2 & w2' & Hload2 & Hdf2 & _).
  rewrite Hnet in Hdf1.
  exists df1, w1', df2, w2', (loaded read_excel url (network w2 url)).1.
  repeat (split; [done|]). split; [|split].
  - destruct (find_data_center_determined rng (loaded read_excel url (network w2 url)).1 1)
      as (r & out & wr & H).
    destruct (H w1' df1 Hdf1) as (? & -> & _).
    by destruct (H w2' df2 Hdf2) as (? & -> & _).
  - intros center.
    destruct (calculate_impact_determined (loaded read_excel url (network w2 url)).1 center)
      as (r & out & wr & H).
    destruct (H w1' df1 Hdf1) as (? & -> & _).
    by destruct (H w2' df2 Hdf2) as (? & -> & _).
  - destruct (main_determined read_excel rng (network w2 url)) as (r & out & H).
    exists r, out.
    destruct (H w1 Hnet) as (? & -> & ? & ?).
    by destruct (H w2 eq_refl) as (? & -> & ? & ?).
Qed.

Lemma pipeline_deterministic_witness :
  let read_excel := workbook one_school two_measurements in
  let rng := λ (_ : N) (i : nat), i in
  let w1 := online in
  let w2 := online_later in
  ∃ df1 w1' df2 w2' d,
    load_data read_excel url w1 = (Ok df1, w1') ∧
    load_data read_excel url w2 = (Ok df2, w2') ∧
    frames w1' !! df1 = Some d ∧
    frames w2' !! df2 = Some d ∧
    (find_data_center rng df1 1 w1').1 = (find_data_center rng df2 1 w2').1 ∧
    (∀ center, (calculate_impact df1 center w1').1 = (calculate_impact df2 center w2').1) ∧
    ∃ r out,
      (main read_excel rng w1).1 = r ∧
      (main read_excel rng w2).1 = r ∧
      display (main read_excel rng w1).2 = display w1 ++ out ∧
      display (main read_excel rng w2).2 = display w2 ++ out ∧
      np_random (main read_excel rng w1).2 = np_random w1 ∧
      np_random (main read_excel rng w2).2 = np_random w2.
Proof.
  apply (pipeline_deterministic (workbook one_school two_measurements) (λ _ i, i)
           online online_later).
  reflexivity.
Defined.

(** * Further properties of the stages *)

(** ** The sentinel means "empty", and nothing else *)

(** On a non-empty frame the Locator returns centres or raises; it writes
    nothing on the page and saves nothing. *)
Lemma find_data_center_nonempty rng w df d n_clusters :
  frames w !! df = Some d →
  pd.empty d = false →
  ∃ r w', find_data_center rng df n_clusters w = (r, w') ∧
          r ≠ Ok None ∧ extends w w' [] ∅.
Proof.
  intros Hdf He. run. rewrite Hdf. cbn. rewrite He, Hdf.
  destruct (pd.getitem2 d "latitude" "longitude") as [X|e] eqn:HX.
  2:{ eexists _, _. split; [reflexivity|]. split; [done|apply extends_refl]. }
  destruct n_clusters as [|n].
  { eexists _, _. split; [reflexivity|]. split; [done|apply (extends_new_frame w X)]. }
  cbn -[kmeans.check_array Nat.ltb kmeans.lloyd kmeans.tolerance init_centroids].
  rewrite lookup_insert_eq.
  destruct (kmeans.check_array X) as [samples|e] eqn:Hcheck.
  2:{ eexists _, _. split; [reflexivity|]. split; [done|apply (extends_new_frame w X)]. }
  destruct (length samples <=? n)%nat.
  - eexists _, _. split; [reflexivity|]. split; [done|apply (extends_new_frame w X)].
  - eexists _, _. split; [reflexivity|]. split; [done|apply (extends_new_frame w X)].
Qed.

(** On a non-empty frame the Estimator returns a summary or raises, and
    leaves the world exactly as it was. *)
Lemma calculate_impact_nonempty w df d center :
  frames w !! df = Some d →
  pd.empty d = false →
  ∃ r, calculate_impact df center w = (r, w) ∧ r ≠ Ok None.
Proof.
  intros Hdf He.
  destruct (pd.getitem d "latency" ≫= pd.mean) as [l|e] eqn:Hl.
  2:{ exists (Raise e). split; [|done].
      run. unfold mbind in *. by rewrite Hdf, He, Hdf, Hl. }
  destruct (pd.getitem d "download_speed" ≫= pd.mean) as [dl|e] eqn:Hd.
  2:{ exists (Raise e). split; [|done].
      run. unfold mbind in *. by rewrite Hdf, He, Hdf, Hl, Hdf, Hd. }
  destruct (pd.getitem d "upload_speed" ≫= pd.mean) as [ul|e] eqn:Hu.
  2:{ exists (Raise e). split; [|done].
      run. unfold mbind in *. by rewrite Hdf, He, Hdf, Hl, Hdf, Hd, Hdf, Hu. }
  destruct (mul l (frac 8 10)) as [l'|e] eqn:Hl'.
  2:{ exists (Raise e). split; [|done].
      run. unfold mbind in *. by rewrite Hdf, He, Hdf, Hl, Hdf, Hd, Hdf, Hu, Hl'. }
  destruct (mul dl (frac 12 10)) as [dl'|e] eqn:Hd'.
  2:{ exists (Raise e). split; [|done].
      run. unfold mbind in *. by rewrite Hdf, He, Hdf, Hl, Hdf, Hd, Hdf, Hu, Hl', Hd'. }
  destruct (mul ul (frac 12 10)) as [ul'|e] eqn:Hu'.
  2:{ exists (Raise e). split; [|done].
      run. unfold mbind in *.
      by rewrite Hdf, He, Hdf, Hl, Hdf, Hd, Hdf, Hu, Hl', Hd', Hu'. }
  eexists (Ok (Some _)). split; [|done].
  run. unfold mbind in *.
  rewrite Hdf, He, Hdf, Hl, Hdf, Hd, Hdf, Hu, Hl', Hd', Hu'. reflexivity.
Qed.

(** On a non-empty frame the Presenter either saves the map and returns its
    path, or raises before anything is saved. *)
Lemma plot_map_nonempty w df d center :
  frames w !! df = Some d →
  pd.empty d = false →
  (∃ doc, plot_map df center w =
            (Ok (Some "map.html"), set_files (insert "map.html" doc) w)) ∨
  (∃ e, plot_map df center w = (Raise e, w)).
Proof.
  intros Hdf He. run. rewrite Hdf. cbn. rewrite He.
  destruct (item2 center 0 0) as [lat|e]; [|right; by eexists].
  destruct (item2 center 0 1) as [lon|e]; [|right; by eexists].
  rewrite Hdf.
  destruct (school_markers (columns d) (rows d)) as [schools|e]; [|right; by eexists].
  left. by eexists.
Qed.

(** X1.  For a Dataset on the heap, each of [find_data_center], [plot_map]
    and [calculate_impact] returns [None] exactly when the Dataset is empty:
    on a non-empty Dataset a stage returns a proper result or raises, never
    the sentinel. *)
Theorem sentinel_iff_empty rng w df d n_clusters center :
  frames w !! df = Some d →
  ((find_data_center rng df n_clusters w).1 = Ok None ↔ pd.empty d = true) ∧
  ((plot_map df center w).1 = Ok None ↔ pd.empty d = true) ∧
  ((calculate_impact df center w).1 = Ok None ↔ pd.empty d = true).
Proof.
  intros Hdf. destruct (pd.empty d) eqn:He.
  - repeat split; intros _; run; by rewrite Hdf, He.
  - destruct (find_data_center_nonempty rng w df d n_clusters Hdf He)
      as (r1 & w1 & -> & Hr1 & _).
    destruct (calculate_impact_nonempty w df d center Hdf He) as (r3 & -> & Hr3).
    repeat split; try done.
    destruct (plot_map_nonempty w df d center Hdf He) as [[doc ->]|[e ->]]; done.
Qed.

Lemma sentinel_iff_empty_witness :
  let rng := λ (_ : N) (i : nat), i in
  ((find_data_center rng 0 1 surveyed).1 = Ok None ↔ pd.empty survey = true) ∧
  ((plot_map 0 None surveyed).1 = Ok None ↔ pd.empty survey = true) ∧
  ((calculate_impact 0 None surveyed).1 = Ok None ↔ pd.empty survey = true).
Proof.
  apply (sentinel_iff_empty (λ _ i, i) surveyed 0 survey 1 None). reflexivity.
Defined.

(** ** The map file *)

(** X2.  [plot_map] touches the world in one of three ways only.  When it
    returns a path, the path is [map.html] and the one change is that file,
    written or overwritten.  When it returns [None], the one change is the
    line that says plotting is skipped.  When it raises, the world is as it
    was: no file is saved and nothing is written. *)
Theorem plot_map_effect w df center :
  match (plot_map df center w).1 with
  | Ok (Some path) =>
      path = "map.html" ∧
      ∃ doc, (plot_map df center w).2 = set_files (insert "map.html" doc) w
  | Ok None =>
      (plot_map df center w).2 = say "Dataframe is empty, skipping map plotting" w
  | Raise _ => (plot_map df center w).2 = w
  end.
Proof.
  destruct (frames w !! df) as [d|] eqn:Hdf.
  - destruct (pd.empty d) eqn:He.
    + assert (plot_map df center w =
              (Ok None, say "Dataframe is empty, skipping map plotting" w)) as ->
        by (run; by rewrite Hdf, He).
      done.
    + destruct (plot_map_nonempty w df d center Hdf He) as [[doc ->]|[e ->]];
        simpl; eauto.
  - assert (plot_map df center w = (Raise (ValueError "no such object"), w)) as ->
      by (run; by rewrite Hdf).
    done.
Qed.





(** ** Missing columns *)

(** X4.  [plot_map] reads five columns of each record without a guard:
    latitude, longitude, download_speed, upload_speed and latency, in this
    order.  On a non-empty Dataset that lacks one of them it raises
    [KeyError] for the first one that is missing, and leaves the world as it
    was: no map is saved. *)
Theorem plot_map_missing_column w df d lat lon others before label after :
  frames w !! df = Some d →
  pd.empty d = false →
  ["latitude"; "longitude"; "download_speed"; "upload_speed"; "latency"] =
    before ++ label :: after →
  Forall (λ l, is_Some (pd.get_loc l (columns d))) before →
  pd.get_loc label (columns d) = None →
  plot_map df (Some ([lat; lon] :: others)) w = (Raise (KeyError label), w).
Proof.
  intros Hdf He Hreq Hbefore Hlabel.
  destruct (rows d) as [|r rs] eqn:Hrows; [by apply empty_false_rows in He|].
  assert (∀ l, l ∈ before → is_Some (pd.get_loc l (columns d))) as Hb
    by (by apply Forall_forall).
  run. rewrite Hdf. cbn. rewrite He, Hdf, Hrows.
  cbn [school_markers]. unfold school_marker, row_getitem, mbind, outcome_bind.
  destruct before as [|b1 [|b2 [|b3 [|b4 [|b5 before]]]]]; simplify_eq/=.
  - by rewrite Hlabel.
  - destruct (Hb "latitude") as [? ->]; [set_solver|]. by rewrite Hlabel.
  - destruct (Hb "latitude") as [? ->]; [set_solver|].
    destruct (Hb "longitude") as [? ->]; [set_solver|]. by rewrite Hlabel.
  - destruct (Hb "latitude") as [? ->]; [set_solver|].
    destruct (Hb "longitude") as [? ->]; [set_solver|].
    destruct (Hb "download_speed") as [? ->]; [set_solver|]. by rewrite Hlabel.
  - destruct (Hb "latitude") as [? ->]; [set_solver|].
    destruct (Hb "longitude") as [? ->]; [set_solver|].
    destruct (Hb "download_speed") as [? ->]; [set_solver|].
    destruct (Hb "upload_speed") as [? ->]; [set_solver|]. by rewrite Hlabel.
  - by destruct before.
Qed.

Lemma plot_map_missing_column_witness :
  plot_map 0 (Some [[frac 131 10; frac (-596) 10]]) (holding one_school) =
    (Raise (KeyError "download_speed"), holding one_school).
Proof.
  apply (plot_map_missing_column (holding one_school) 0 one_school
           (frac 131 10) (frac (-596) 10) [] ["latitude"; "longitude"]
           "download_speed" ["upload_speed"; "latency"]);
    try reflexivity.
  repeat constructor; by eexists.
Defined.

(** X5.  [find_data_center] selects the latitude and longitude columns
    without a guard: on a non-empty Dataset that lacks one of them or both
    it raises one [KeyError], whatever the number of clusters, and leaves
    the world as it was.  When one of the two labels is there, the message
    names the other one. *)
Theorem find_data_center_missing_column rng w df d n_clusters :
  frames w !! df = Some d →
  pd.empty d = false →
  "latitude" ∉ columns d ∨ "longitude" ∉ columns d →
  ∃ msg,
    find_data_center rng df n_clusters w = (Raise (KeyError msg), w) ∧
    ("longitude" ∈ columns d → msg = "['latitude'] not in index") ∧
    ("latitude" ∈ columns d → msg = "['longitude'] not in index").
Proof.
  intros Hdf He Hmissing.
  assert (∀ label, label ∈ columns d → pd.get_locs label (columns d) ≠ []) as Hin.
  { intros label Hl Hnil. by apply get_locs_nil, get_loc_absent in Hnil. }
  assert (∀ msg, pd.getitem2 d "latitude" "longitude" = Raise (KeyError msg) →
            find_data_center rng df n_clusters w = (Raise (KeyError msg), w)) as Hrun.
  { intros msg HX. run. by rewrite Hdf, He, Hdf, HX. }
  unfold pd.getitem2 in Hrun.
  destruct (pd.get_locs "latitude" (columns d)) as [|i ia] eqn:Hlat;
    destruct (pd.get_locs "longitude" (columns d)) as [|j ib] eqn:Hlon.
  - eexists. split; [by apply Hrun|]. split; intros H; by apply Hin in H.
  - eexists. split; [by apply Hrun|]. split; [done|]. intros H. by apply Hin in H.
  - eexists. split; [by apply Hrun|]. split; [|done]. intros H. by apply Hin in H.
  - destruct Hmissing as [H|H]; by rewrite (get_locs_absent _ _ H) in *.
Qed.

Lemma find_data_center_missing_column_witness :
  ∃ msg,
    find_data_center (λ _ i, i) 0 1 (holding no_longitude) =
      (Raise (KeyError msg), holding no_longitude) ∧
    ("longitude" ∈ columns no_longitude → msg = "['latitude'] not in index") ∧
    ("latitude" ∈ columns no_longitude → msg = "['longitude'] not in index").
Proof.
  apply (find_data_center_missing_column (λ _ i, i) (holding no_longitude) 0
           no_longitude 1); try reflexivity.
  right. apply (bool_decide_unpack _). by vm_compute.
Defined.



(** ** What [main] shows and what it touches *)

Lemma loaded_lines read_excel u answer :
  ∃ line, (loaded read_excel u answer).2 =
            [Text ("Loading data from " +:+ u +:+ "..."); Text line].
Proof.
  unfold loaded. destruct answer as [resp|e]; [|by eexists].
  case_decide; [|by eexists]. destruct (sheets read_excel resp); by eexists.
Qed.

(** The four ways [main] can go on after the load. *)
Lemma after_load_runs rng w df d :
  frames w !! df = Some d →
  ∃ r tail w',
    after_load rng df w = (r, w') ∧
    display w' = display w ++ tail ∧
    frames w ⊆ frames w' ∧
    network w' = network w ∧
    np_random w' = np_random w ∧
    ((r = Ok () ∧ tail = [Text "No data to process, exiting application."] ∧
      files w' = files w) ∨
     (∃ e, r = Raise e ∧ tail = [] ∧ files w' = files w) ∨
     (∃ e doc, r = Raise e ∧ tail = [Html doc 600] ∧
               files w' = <["map.html":=doc]> (files w)) ∨
     (∃ doc fig, r = Ok () ∧ tail = [Html doc 600; PlotlyChart fig] ∧
                 files w' = <["map.html":=doc]> (files w))).
Proof.
  intros Hdf. unfold after_load.
  rewrite (bind_ok _ _ _ _ _ (df_empty_ok _ _ _ Hdf)).
  destruct (pd.empty d) eqn:He.
  { eexists _, _, _. split; [reflexivity|]. simpl. repeat split; [done|]. by left. }
  destruct (find_data_center_nonempty rng w df d 1 Hdf He)
    as (r1 & w1 & Hrun1 & Hr1 & Hd1 & Hf1 & Hn1 & Hg1 & Hs1).
  rewrite app_nil_r in Hd1. rewrite (left_id_L ∅ (∪)) in Hf1.
  destruct r1 as [[c|]|e]; [|done|].
  2:{ rewrite (bind_raise _ _ _ _ _ Hrun1). eexists _, _, _. split; [reflexivity|].
      rewrite app_nil_r. repeat split; try done. right; left. by eexists. }
  rewrite (bind_ok _ _ _ _ _ Hrun1).
  assert (frames w1 !! df = Some d) as Hdf1 by (by apply (lookup_weaken _ _ _ _ Hdf)).
  destruct (plot_map_nonempty w1 df d (Some c) Hdf1 He) as [[doc Hrun2]|[e Hrun2]].
  2:{ rewrite (bind_raise _ _ _ _ _ (bind_raise _ _ _ _ _ Hrun2)).
      eexists _, _, _. split; [reflexivity|].
      rewrite app_nil_r. repeat split; try done. right; left. by eexists. }
  set (w2 := set_display (λ p, p ++ [Html doc 600])
               (set_files (insert "map.html" doc) w1)).
  assert ((map_file ← plot_map df (Some c);
           match map_file with
           | Some path =>
               if decide (path = EmptyString) then mret ()
               else doc ← open_read path; st.html doc 600
           | None => mret ()
           end) w1 = (Ok (), w2)) as Hmap.
  { rewrite (bind_ok _ _ _ _ _ Hrun2). rewrite decide_False by done.
    run. simpl. by rewrite lookup_insert_eq. }
  rewrite (bind_ok _ _ _ _ _ Hmap).
  assert (frames w2 !! df = Some d) as Hdf2 by done.
  destruct (calculate_impact_nonempty w2 df d (Some c) Hdf2 He) as (r3 & Hrun3 & Hr3).
  destruct r3 as [[[[[[[l dl] ul] l'] dl'] ul']|]|e]; [|done|].
  - rewrite (bind_ok _ _ _ _ _ Hrun3). eexists _, _, _. split; [reflexivity|].
    simpl. rewrite Hd1, Hf1, Hn1, Hg1, <- app_assoc. repeat split; [done|].
    right; right; right. by eexists _, _.
  - rewrite (bind_raise _ _ _ _ _ Hrun3). eexists _, _, _. split; [reflexivity|].
    simpl. rewrite Hd1, Hf1, Hn1, Hg1. repeat split; [done|].
    right; right; left. by eexists _, _.
Qed.

Lemma main_runs read_excel rng w :
  ∃ r line tail w',
    main read_excel rng w = (r, w') ∧
    display w' = display w ++
      [Text ("Loading data from " +:+ url +:+ "..."); Text line] ++ tail ∧
    frames w ⊆ frames w' ∧
    network w' = network w ∧
    np_random w' = np_random w ∧
    ((r = Ok () ∧ tail = [Text "No data to process, exiting application."] ∧
      files w' = files w) ∨
     (∃ e, r = Raise e ∧ tail = [] ∧ files w' = files w) ∨
     (∃ e doc, r = Raise e ∧ tail = [Html doc 600] ∧
               files w' = <["map.html":=doc]> (files w)) ∨
     (∃ doc fig, r = Ok () ∧ tail = [Html doc 600; PlotlyChart fig] ∧
                 files w' = <["map.html":=doc]> (files w))).
Proof.
  destruct (load_data_runs read_excel url w)
    as (df & w1 & Hload & Hdf & Hd1 & Hf1 & Hn1 & Hg1 & Hs1).
  destruct (loaded_lines read_excel url (network w url)) as [line Hline].
  rewrite Hline in Hd1. rewrite (left_id_L ∅ (∪)) in Hf1.
  destruct (after_load_runs rng w1 df _ Hdf)
    as (r & tail & w2 & Hrun & Hd2 & Hs2 & Hn2 & Hg2 & Hcases).
  exists r, line, tail, w2.
  rewrite main_after_load, (bind_ok _ _ _ _ _ Hload).
  split; [done|]. rewrite Hd2, Hd1, Hn2, Hn1, Hg2, Hg1, <- app_assoc.
  repeat split; [by etrans|]. by rewrite <- Hf1.
Qed.

(** X7.  Whatever the network, the workbook and the data, the page after
    [main] is the page before it, then the line that announces the load and
    one line that reports how it went, and then one of four things: the
    line that there is no data to process, at a normal return; nothing
    more, when a stage raised before the map was saved; the embedded map
    alone, when the Estimator raised; the embedded map and the chart, at a
    normal return.  So [main] never reports that no data centre was found,
    and no stage ever reports that it skips its work. *)
Theorem main_page read_excel rng w :
  ∃ line tail,
    display (main read_excel rng w).2 =
      display w ++ [Text ("Loading data from " +:+ url +:+ "..."); Text line] ++ tail ∧
    (((main read_excel rng w).1 = Ok () ∧
      tail = [Text "No data to process, exiting application."]) ∨
     (∃ e, (main read_excel rng w).1 = Raise e ∧ tail = []) ∨
     (∃ e doc, (main read_excel rng w).1 = Raise e ∧ tail = [Html doc 600]) ∨
     (∃ doc fig, (main read_excel rng w).1 = Ok () ∧
                 tail = [Html doc 600; PlotlyChart fig])).
Proof.
  destruct (main_runs read_excel rng w)
    as (r & line & tail & w' & -> & Hd & _ & _ & _ & Hcases).
  exists line, tail. split; [done|]. simpl.
  destruct Hcases as [(-> & -> & _)|[(e & -> & -> & _)|
    [(e & doc & -> & -> & _)|(doc & fig & -> & -> & _)]]]; eauto 10.
Qed.

(** X8.  [main] writes no file other than [map.html]: afterwards the files
    are as before, or as before with [map.html] written or overwritten.
    Every frame that was on the heap is still there unchanged, and the
    state of numpy's global generator is as it was. *)
Theorem main_footprint read_excel rng w :
  (files (main read_excel rng w).2 = files w ∨
   ∃ doc, files (main read_excel rng w).2 = <["map.html":=doc]> (files w)) ∧
  (∀ path, path ≠ "map.html" →
     files (main read_excel rng w).2 !! path = files w !! path) ∧
  frames w ⊆ frames (main read_excel rng w).2 ∧
  np_random (main read_excel rng w).2 = np_random w.
Proof.
  destruct (main_runs read_excel rng w)
    as (r & line & tail & w' & -> & _ & Hs & _ & Hg & Hcases). simpl.
  assert (files w' = files w ∨ ∃ doc, files w' = <["map.html":=doc]> (files w)) as Hf.
  { destruct Hcases as [(_ & _ & ->)|[(e & _ & _ & ->)|
      [(e & doc & _ & _ & ->)|(doc & fig & _ & _ & ->)]]]; eauto. }
  repeat split; try done.
  intros path Hpath. destruct Hf as [->|[doc ->]]; [done|].
  by rewrite lookup_insert_ne.
Qed.

(** ** What [load_data] touches *)

Lemma fresh_above (h h' : gmap loc DataFrame) : h ⊆ h' → h !! fresh (dom h') = None.
Proof.
  intros Hsub. destruct (h !! fresh (dom h')) as [d|] eqn:Hd; [|done].
  apply (lookup_weaken _ _ _ _ Hd) in Hsub.
  by apply mk_is_Some, elem_of_dom, is_fresh in Hsub.
Qed.

(** The frame that [load_data] returns is a new one. *)
Lemma load_data_fresh read_excel u w df w' :
  load_data read_excel u w = (Ok df, w') → frames w !! df = None.
Proof.
  unfold load_data, try_except, pd_read_excel, pd_merge, df_columns, set_columns,
    frame_of, requests.get, new_frame, lift, st.write, mbind, M_bind, mret, M_ret.
  simpl. destruct (network w u) as [resp|e]; simpl.
  2:{ intros [= <- _]. by apply fresh_above. }
  case_decide; simpl.
  2:{ intros [= <- _]. by apply fresh_above. }
  destruct (read_excel (content resp) "lat long") as [A|e]; simpl.
  2:{ intros [= <- _]. by apply fresh_above. }
  destruct (read_excel (content resp) "measurement data") as [B|e]; simpl.
  2:{ intros [= <- _]. apply fresh_above, insert_fresh_subseteq. }
  rewrite lookup_insert_ne by apply fresh_insert_ne.
  rewrite lookup_insert_eq. simpl. rewrite lookup_insert_eq.
  destruct (pd.merge A B "school_id_giga") as [m|e]; simpl.
  - rewrite !lookup_insert_eq. simpl. rewrite lookup_insert_eq.
    intros [= <- _]. apply fresh_above.
    etrans; [|apply insert_fresh_subseteq]. apply insert_fresh_subseteq.
  - intros [= <- _]. apply fresh_above.
    etrans; [|apply insert_fresh_subseteq]. apply insert_fresh_subseteq.
Qed.

(** X9.  In every world [load_data] returns a frame that was not on the
    heap before; it adds exactly two lines to the page, the first of which
    announces the load; it saves no file; and it leaves every frame that
    was on the heap, the network and numpy's generator as they were. *)
Theorem load_data_footprint read_excel u w :
  ∃ df w' line,
    load_data read_excel u w = (Ok df, w') ∧
    frames w !! df = None ∧
    is_Some (frames w' !! df) ∧
    display w' = display w ++ [Text ("Loading data from " +:+ u +:+ "..."); Text line] ∧
    files w' = files w ∧
    frames w ⊆ frames w' ∧
    network w' = network w ∧
    np_random w' = np_random w.
Proof.
  destruct (load_data_runs read_excel u w)
    as (df & w' & Hload & Hdf & Hd & Hf & Hn & Hg & Hs).
  destruct (loaded_lines read_excel u (network w u)) as [line Hline].
  exists df, w', line. rewrite Hline in Hd. rewrite (left_id_L ∅ (∪)) in Hf.
  repeat split; try done. by apply load_data_fresh in Hload.
Qed.

(** ** The join, once more *)

(** X10.  The inner join loses no matching pair: when the workbook is
    fetched and parsed, both sheets carry the key column and the merge
    goes through, every row of the first sheet and every row of the second
    sheet with the same key appear in the loaded Dataset as one row: the
    first row followed by the second without its key. *)
Theorem load_data_join_complete read_excel w u resp A B i j m a b :
  network w u = Ok resp →
  status_code resp = 200 →
  read_excel (content resp) "lat long" = Ok A →
  read_excel (content resp) "measurement data" = Ok B →
  pd.get_loc "school_id_giga" (columns A) = Some i →
  pd.get_loc "school_id_giga" (columns B) = Some j →
  pd.merge A B "school_id_giga" = Ok m →
  a ∈ rows A →
  b ∈ rows B →
  pd.cell_at i a = pd.cell_at j b →
  ∃ df w' d,
    load_data read_excel u w = (Ok df, w') ∧
    frames w' !! df = Some d ∧
    a ++ delete j b ∈ rows d.
Proof.
  intros Hnet Hstatus HA HB Hi Hj Hm Ha Hb Hkey.
  destruct (load_data_ok _ _ _ _ _ _ _ Hnet Hstatus HA HB Hm)
    as (df & w' & Hrun & Hdf & _).
  destruct (merge_rows _ _ _ _ _ _ Hi Hj Hm) as [Hrows _].
  eexists df, w', _. split; [done|]. split; [done|]. simpl.
  rewrite Hrows. apply elem_of_joined. by exists a, b.
Qed.

Lemma load_data_join_complete_witness :
  ∃ df w' d,
    load_data (workbook one_school two_measurements) url online = (Ok df, w') ∧
    frames w' !! df = Some d ∧
    [Num 1; Num (frac 131 10); Num (frac (-596) 10)] ++
      delete 0 [Num 1; Num (frac 12 1); Num (frac 3 1); Num (frac 40 1)] ∈ rows d.
Proof.
  apply (load_data_join_complete (workbook one_school two_measurements) online url
           {| status_code := 200; content := "PK" |} one_school two_measurements 0 0
           {| columns := ["school_id_giga"; "latitude"; "longitude";
                          "download_speed"; "upload_speed"; "latency"];
              rows := [[Num 1; Num (frac 131 10); Num (frac (-596) 10);
                        Num (frac 10 1); Num (frac 2 1); Num (frac 50 1)];
                       [Num 1; Num (frac 131 10); Num (frac (-596) 10);
                        Num (frac 12 1); Num (frac 3 1); Num (frac 40 1)]] |});
    try reflexivity.
  - left.
  - right. left.
Defined.

(** X11.  The key column is looked up before the labels are stripped: when
    the workbook is fetched and parsed, with distinct labels in each sheet
    as [read_excel] makes them, but one of the sheets has no column
    labelled exactly [school_id_giga], the merge raises [KeyError], and
    [load_data] returns the empty [pd.DataFrame()] and reports the key,
    in quotes, as the error. *)
Theorem load_data_missing_key read_excel w u resp A B :
  network w u = Ok resp →
  status_code resp = 200 →
  read_excel (content resp) "lat long" = Ok A →
  read_excel (content resp) "measurement data" = Ok B →
  NoDup (columns A) →
  NoDup (columns B) →
  "school_id_giga" ∉ columns A ∨ "school_id_giga" ∉ columns B →
  ∃ df w',
    load_data read_excel u w = (Ok df, w') ∧
    frames w' !! df = Some pd.DataFrame ∧
    display w' = display w ++
      [Text ("Loading data from " +:+ u +:+ "...");
       Text "Error loading data: 'school_id_giga'"].
Proof.
  intros Hnet Hstatus HA HB HdA HdB Hkey.
  destruct (load_data_runs read_excel u w) as (df & w' & Hload & Hdf & Hd & _).
  pose proof (merge_missing_key A B "school_id_giga" HdA HdB Hkey) as Hm.
  revert Hdf Hd. unfold loaded, sheets, mbind, outcome_bind.
  rewrite Hnet, decide_True, HA, HB, Hm by done. simpl. intros Hdf Hd.
  by exists df, w'.
Qed.

Lemma load_data_missing_key_witness :
  ∃ df w',
    load_data (workbook blank_after_key one_measurement) url online = (Ok df, w') ∧
    frames w' !! df = Some pd.DataFrame ∧
    display w' = display online ++
      [Text ("Loading data from " +:+ url +:+ "...");
       Text "Error loading data: 'school_id_giga'"].
Proof.
  apply (load_data_missing_key (workbook blank_after_key one_measurement) online url
           {| status_code := 200; content := "PK" |} blank_after_key one_measurement);
    try reflexivity.
  - apply (bool_decide_unpack _). by vm_compute.
  - apply (bool_decide_unpack _). by vm_compute.
  - left. apply (bool_decide_unpack _). by vm_compute.
Defined.

(** ** A run that succeeds *)





(** ** A run whose load fails *)

(** X13.  When the load fails, [main] ends normally after three lines: the
    line that announces the load, the reason, and the line that there is no
    data to process.  The reason is the exception's text when the request
    raises, and when a sheet fails to parse or the merge raises; it is the
    status code when the status is not 200.  No file is saved. *)
Theorem main_load_failure read_excel rng w :
  let ends_with line w' :=
    main read_excel rng w = (Ok (), w') ∧
    display w' = display w ++
      [Text ("Loading data from " +:+ url +:+ "...");
       Text line;
       Text "No data to process, exiting application."] ∧
    files w' = files w in
  (∀ e, network w url = Raise e →
     ∃ w', ends_with ("Error loading data: " +:+ exc_str e) w') ∧
  (∀ resp, network w url = Ok resp → status_code resp ≠ 200 →
     ∃ w', ends_with
             ("Failed to load data. Status code: " +:+ pretty (status_code resp)) w') ∧
  (∀ resp e, network w url = Ok resp → status_code resp = 200 →
     sheets read_excel resp = Raise e →
     ∃ w', ends_with ("Error loading data: " +:+ exc_str e) w').
Proof.
  cbv zeta.
  destruct (load_data_runs read_excel url w)
    as (df & w1 & Hload & Hdf & Hd1 & Hf1 & _).
  rewrite (left_id_L ∅ (∪)) in Hf1.
  assert (∀ line,
    (loaded read_excel url (network w url)) =
      (pd.DataFrame, [Text ("Loading data from " +:+ url +:+ "..."); Text line]) →
    main read_excel rng w =
      (Ok (), say "No data to process, exiting application." w1) ∧
    display (say "No data to process, exiting application." w1) =
      display w ++ [Text ("Loading data from " +:+ url +:+ "..."); Text line;
                    Text "No data to process, exiting application."] ∧
    files (say "No data to process, exiting application." w1) = files w) as Hend.
  { intros line Hloaded. rewrite Hloaded in Hdf, Hd1. simpl in Hdf, Hd1.
    split; [|split; [|done]].
    - rewrite main_after_load, (bind_ok _ _ _ _ _ Hload). unfold after_load.
      by rewrite (bind_ok _ _ _ _ _ (df_empty_ok _ _ _ Hdf)).
    - simpl. by rewrite Hd1, <- app_assoc. }
  repeat split.
  - intros e Hnet. eexists. apply Hend. unfold loaded. by rewrite Hnet.
  - intros resp Hnet Hstatus. eexists. apply Hend. unfold loaded.
    by rewrite Hnet, decide_False.
  - intros resp e Hnet Hstatus Hsheets. eexists. apply Hend. unfold loaded.
    by rewrite Hnet, decide_True, Hsheets.
Qed.

Lemma main_load_failure_witness :
  let rng := λ (_ : N) (i : nat), i in
  let ends_with read_excel w line w' :=
    main read_excel rng w = (Ok (), w') ∧
    display w' = display w ++
      [Text ("Loading data from " +:+ url +:+ "...");
       Text line;
       Text "No data to process, exiting application."] ∧
    files w' = files w in
  (∃ w', ends_with (workbook one_school one_measurement) blank_world
           "Error loading data: unreachable" w') ∧
  (∃ w', ends_with (workbook one_school one_measurement) not_found
           "Failed to load data. Status code: 404" w') ∧
  (∃ w', ends_with (workbook blank_after_key one_measurement) online
           "Error loading data: 'school_id_giga'" w').
Proof.
  cbv zeta. split; [|split].
  - apply (proj1 (main_load_failure (workbook one_school one_measurement)
                    (λ _ i, i) blank_world) (RequestException "unreachable")).
    reflexivity.
  - apply (proj1 (proj2 (main_load_failure (workbook one_school one_measurement)
                           (λ _ i, i) not_found))
             {| status_code := 404; content := EmptyString |});
      [reflexivity | discriminate].
  - apply (proj2 (proj2 (main_load_failure (workbook blank_after_key one_measurement)
                           (λ _ i, i) online))
             {| status_code := 200; content := "PK" |} (KeyError "school_id_giga"));
      reflexivity.
Defined.

(** ** The labels of a loaded Dataset *)

Section strip.

Local Abbreviation chars := String.list_ascii_of_string.

Lemma chars_inj s1 s2 : chars s1 = chars s2 → s1 = s2.
Proof.
  intros H. rewrite <- (String.string_of_list_ascii_of_string s1),
    <- (String.string_of_list_ascii_of_string s2). by rewrite H.
Qed.

Lemma chars_rev_app s1 s2 :
  chars (String.rev_app s1 s2) = reverse (chars s1) ++ chars s2.
Proof.
  revert s2. induction s1 as [|a s1 IH]; intros s2; simpl; [done|].
  by rewrite IH, reverse_cons, <- app_assoc.
Qed.

Lemma chars_rev s : chars (String.rev s) = reverse (chars s).
Proof. unfold String.rev. by rewrite chars_rev_app, app_nil_r. Qed.

Lemma chars_lstrip s : chars (pd.lstrip s) = drop_spaces (chars s).
Proof. induction s as [|a s IH]; simpl; [done|]. by destruct (Ascii.is_space a). Qed.

Lemma chars_strip s :
  chars (pd.strip s) = reverse (drop_spaces (reverse (drop_spaces (chars s)))).
Proof. unfold pd.strip. by rewrite chars_rev, chars_lstrip, chars_rev, chars_lstrip. Qed.

Lemma drop_spaces_clean l : clean (drop_spaces l).
Proof.
  induction l as [|a l IH]; simpl; [done|].
  by destruct (Ascii.is_space a) eqn:Ha.
Qed.

Lemma clean_drop_spaces l : clean l → drop_spaces l = l.
Proof. destruct l as [|a l]; simpl; [done|]. by intros ->. Qed.

(** What [drop_spaces] drops is a prefix. *)
Lemma drop_spaces_suffix l : ∃ sp, l = sp ++ drop_spaces l.
Proof.
  induction l as [|a l [sp IH]]; simpl; [by exists []|].
  destruct (Ascii.is_space a); [|by exists []].
  exists (a :: sp). simpl. by f_equal.
Qed.

(** Dropping the white space at the end of a clean list leaves it clean. *)
Lemma clean_rstrip t : clean t → clean (reverse (drop_spaces (reverse t))).
Proof.
  intros Ht. destruct (drop_spaces_suffix (reverse t)) as [sp Hsp].
  apply (f_equal reverse) in Hsp. rewrite reverse_involutive, reverse_app in Hsp.
  destruct (reverse (drop_spaces (reverse t))) as [|a r]; [done|].
  rewrite Hsp in Ht. exact Ht.
Qed.

Lemma strip_no_space s :
  pd.lstrip (pd.strip s) = pd.strip s ∧
  pd.lstrip (String.rev (pd.strip s)) = String.rev (pd.strip s).
Proof.
  split; apply chars_inj.
  - rewrite chars_lstrip, chars_strip. apply clean_drop_spaces, clean_rstrip,
      drop_spaces_clean.
  - rewrite chars_lstrip, chars_rev, chars_strip, reverse_involutive.
    apply clean_drop_spaces, drop_spaces_clean.
Qed.

End strip.

(** X14.  Every Dataset that [load_data] returns has labels without white
    space at either end: stripping a label from the left, or its reverse
    from the left, leaves it as it is; so stripping it again changes
    nothing. *)
Theorem load_data_labels_stripped read_excel u w :
  ∃ df w' d,
    load_data read_excel u w = (Ok df, w') ∧
    frames w' !! df = Some d ∧
    ∀ label, label ∈ columns d →
      pd.lstrip label = label ∧
      pd.lstrip (String.rev label) = String.rev label ∧
      pd.strip label = label.
Proof.
  destruct (load_data_runs read_excel u w) as (df & w' & Hload & Hdf & _).
  exists df, w', (loaded read_excel u (network w u)).1.
  split; [done|]. split; [done|].
  assert (∀ label, label ∈ columns pd.DataFrame → pd.lstrip label = label ∧
            pd.lstrip (String.rev label) = String.rev label ∧ pd.strip label = label)
    as Hnone by (intros label Hin; by apply elem_of_nil in Hin).
  unfold loaded. destruct (network w u) as [resp|e]; [|done].
  case_decide; [|done]. destruct (sheets read_excel resp) as [m|e]; [|done].
  simpl. intros label Hin. apply list_elem_of_fmap in Hin as (s & -> & _).
  destruct (strip_no_space s) as [Hl Hr]. split; [done|]. split; [done|].
  unfold pd.strip at 1. rewrite Hl, Hr.
  apply chars_inj. by rewrite chars_rev, chars_rev, reverse_involutive.
Qed.

(** ** Where an exception of [main] comes from *)

(** X15.  [main] raises nothing of its own.  An exception that leaves
    [main] was raised by [find_data_center], by [plot_map] or by
    [calculate_impact] on the loaded Dataset, in the world the stages
    before it left: reading [map.html] back never fails, because [plot_map]
    has just saved it, and the result of [calculate_impact] is never the
    [None] that cannot be unpacked, because the Dataset is not empty. *)
Theorem main_exception_origin read_excel rng w e :
  (main read_excel rng w).1 = Raise e →
  ∃ df w1,
    load_data read_excel url w = (Ok df, w1) ∧
    ((find_data_center rng df 1 w1).1 = Raise e ∨
     ∃ c w2,
       find_data_center rng df 1 w1 = (Ok (Some c), w2) ∧
       ((plot_map df (Some c) w2).1 = Raise e ∨
        ∃ doc,
          plot_map df (Some c) w2 =
            (Ok (Some "map.html"), set_files (insert "map.html" doc) w2) ∧
          (calculate_impact df (Some c)
             (set_display (λ p, p ++ [Html doc 600])
                (set_files (insert "map.html" doc) w2))).1 = Raise e)).
Proof.
  intros Hr.
  destruct (load_data_runs read_excel url w) as (df & w1 & Hload & Hdf & _).
  exists df, w1. split; [done|].
  rewrite main_after_load, (bind_ok _ _ _ _ _ Hload) in Hr. unfold after_load in Hr.
  rewrite (bind_ok _ _ _ _ _ (df_empty_ok _ _ _ Hdf)) in Hr.
  destruct (pd.empty _) eqn:He; [done|].
  destruct (find_data_center_nonempty rng w1 df _ 1 Hdf He)
    as (r1 & w2 & Hrun1 & Hr1 & _ & _ & _ & _ & Hs1).
  destruct r1 as [[c|]|e1]; [|done|].
  2:{ rewrite (bind_raise _ _ _ _ _ Hrun1) in Hr. injection Hr as <-.
      left. by rewrite Hrun1. }
  rewrite (bind_ok _ _ _ _ _ Hrun1) in Hr. right. exists c, w2. split; [done|].
  assert (frames w2 !! df = Some (loaded read_excel url (network w url)).1) as Hdf2
    by (by apply (lookup_weaken _ _ _ _ Hdf)).
  destruct (plot_map_nonempty w2 df _ (Some c) Hdf2 He) as [[doc Hrun2]|[e2 Hrun2]].
  2:{ rewrite (bind_raise _ _ _ _ _ (bind_raise _ _ _ _ _ Hrun2)) in Hr.
      injection Hr as <-. left. by rewrite Hrun2. }
  right. exists doc. split; [done|].
  set (w3 := set_display (λ p, p ++ [Html doc 600])
               (set_files (insert "map.html" doc) w2)) in *.
  assert ((map_file ← plot_map df (Some c);
           match map_file with
           | Some path =>
               if decide (path = EmptyString) then mret ()
               else doc ← open_read path; st.html doc 600
           | None => mret ()
           end) w2 = (Ok (), w3)) as Hmap.
  { rewrite (bind_ok _ _ _ _ _ Hrun2). rewrite decide_False by done.
    run. simpl. by rewrite lookup_insert_eq. }
  rewrite (bind_ok _ _ _ _ _ Hmap) in Hr.
  assert (frames w3 !! df = Some (loaded read_excel url (network w url)).1) as Hdf3
    by done.
  destruct (calculate_impact_nonempty w3 df _ (Some c) Hdf3 He) as (r3 & Hrun3 & Hr3).
  destruct r3 as [[[[[[[l dl] ul] l'] dl'] ul']|]|e3]; [|done|].
  - by rewrite (bind_ok _ _ _ _ _ Hrun3) in Hr.
  - rewrite (bind_raise _ _ _ _ _ Hrun3) in Hr. injection Hr as <-.
    by rewrite Hrun3.
Qed.

Lemma main_exception_origin_witness :
  let read_excel := workbook one_measurement one_measurement in
  let rng := λ (_ : N) (i : nat), i in
  let e := KeyError ("None of [Index(['latitude', 'longitude'], dtype='object')] " +:+
                     "are in the [columns]") in
  ∃ df w1,
    load_data read_excel url online = (Ok df, w1) ∧
    ((find_data_center rng df 1 w1).1 = Raise e ∨
     ∃ c w2,
       find_data_center rng df 1 w1 = (Ok (Some c), w2) ∧
       ((plot_map df (Some c) w2).1 = Raise e ∨
        ∃ doc,
          plot_map df (Some c) w2 =
            (Ok (Some "map.html"), set_files (insert "map.html" doc) w2) ∧
          (calculate_impact df (Some c)
             (set_display (λ p, p ++ [Html doc 600])
                (set_files (insert "map.html" doc) w2))).1 = Raise e)).
Proof.
  apply (main_exception_origin (workbook one_measurement one_measurement)
           (λ _ i, i) online
           (KeyError ("None of [Index(['latitude', 'longitude'], dtype='object')] " +:+
                      "are in the [columns]"))).
  by vm_compute.
Defined.
